(** * The draggable / resizable window component of FTXUI

    A shallow embedding of [src/ftxui/component/window.cpp]: the layout
    wrapper [PositionAndSize], the [DropShadowDecorator], the default
    renderer [DefaultRenderState] and the mouse handling of
    [WindowImpl::OnEvent], followed by the properties of the window that
    hold on this code. *)

From Stdlib Require Import ZArith List String Bool Lia.
Import ListNotations.
Local Open Scope Z_scope.

(** ** The C++ [int]

    An [int] is a 32-bit two's complement number.  It is carried by [Z];
    every arithmetic result goes through [to_int], which brings it back
    into the representable range, as the compiled code does (the language
    itself leaves the overflow of an [int] undefined). *)
Module CInt.

Definition min_int : Z := - 2 ^ 31.
Definition max_int : Z := 2 ^ 31 - 1.

Definition in_range (z : Z) : Prop := min_int <= z <= max_int.

Definition to_int (z : Z) : Z := (z + 2 ^ 31) mod 2 ^ 32 - 2 ^ 31.

Definition add (a b : Z) : Z := to_int (a + b).
Definition sub (a b : Z) : Z := to_int (a - b).

(** [std::size_t] is a 64-bit unsigned number. *)
Definition to_size_t (z : Z) : Z := z mod 2 ^ 64.

(** [std::max<int>(a, b)] on two [int]s. *)
Definition max (a b : Z) : Z := Z.max a b.

End CInt.

Declare Scope cint_scope.
Delimit Scope cint_scope with cint.
Infix "+i" := CInt.add (at level 50, left associativity) : cint_scope.
Infix "-i" := CInt.sub (at level 50, left associativity) : cint_scope.
Local Open Scope cint_scope.

(** ** Boxes, pixels and the screen *)

(** Modelled from the spec: the external [Box] utility (ftxui/screen/box.hpp),
    a rectangle with inclusive min/max bounds and a containment test. *)
Record Box : Type := mkBox {
  x_min : Z;
  x_max : Z;
  y_min : Z;
  y_max : Z
}.

Definition default_Box : Box := mkBox 0 0 0 0.

Definition Contain (b : Box) (x y : Z) : bool :=
  (x_min b <=? x) && (x <=? x_max b) && (y_min b <=? y) && (y <=? y_max b).

Inductive Color : Type :=
| Default
| Black
| GrayDark
| Cyan.

(** Modelled from the spec: a cell of the external pixel buffer, with its
    foreground, its background and the flag that lets it blend with its
    neighbours ([automerge]); a [Screen] gives the cell at every absolute
    coordinate, as [Screen::PixelAt] does. *)
Record Pixel : Type := mkPixel {
  foreground_color : Color;
  background_color : Color;
  automerge : bool
}.

Definition Screen : Type := Z -> Z -> Pixel.

Definition blank_Pixel : Pixel := mkPixel Default Default false.
Definition blank_Screen : Screen := fun _ _ => blank_Pixel.

(** Assigning through the reference returned by [screen.PixelAt(x, y)]. *)
Definition set_PixelAt (screen : Screen) (x y : Z) (p : Pixel) : Screen :=
  fun x' y' => if (x' =? x) && (y' =? y) then p else screen x' y'.

(** ** Elements *)

(** Modelled from the spec: the external node of the render tree
    (ftxui/dom/node.hpp).  What the window needs of it are the size it asks
    for ([ComputeRequirement]) and what it draws on the screen once it has
    been given a box ([SetBox] then [Render]). *)
Record Element : Type := mkElement {
  min_x : Z;
  min_y : Z;
  Render : Box -> Screen -> Screen
}.

Inductive WidthOrHeight : Type := WIDTH | HEIGHT.

(** Modelled from the spec: the external element combinators used by
    [PositionAndSize] (ftxui/dom): the empty element, the fixed-size
    constraint [size(direction, EQUAL, value)] and the vertical and
    horizontal stackings.  An element under [size] asks for [value] cells
    and draws in at most that many; a stacking gives each child the extent
    it asks for, one after the other, cut at the end of its own box. *)
Definition emptyElement : Element :=
  mkElement 0 0 (fun _ screen => screen).

Definition size (direction : WidthOrHeight) (value : Z) (e : Element)
  : Element :=
  match direction with
  | WIDTH =>
      mkElement value (min_y e)
        (fun box => Render e
           (mkBox (x_min box) (Z.min (x_min box + value - 1) (x_max box))
                  (y_min box) (y_max box)))
  | HEIGHT =>
      mkElement (min_x e) value
        (fun box => Render e
           (mkBox (x_min box) (x_max box)
                  (y_min box) (Z.min (y_min box + value - 1) (y_max box))))
  end.

Fixpoint hbox_Render (children : list Element) (x : Z) (box : Box)
  (screen : Screen) : Screen :=
  match children with
  | [] => screen
  | e :: rest =>
      let child_box :=
        mkBox x (Z.min (x + min_x e - 1) (x_max box)) (y_min box) (y_max box) in
      hbox_Render rest (x + min_x e) box (Render e child_box screen)
  end.

Definition hbox (children : list Element) : Element :=
  mkElement
    (fold_right (fun e acc => min_x e + acc) 0 children)
    (fold_right (fun e acc => Z.max (min_y e) acc) 0 children)
    (fun box => hbox_Render children (x_min box) box).

Fixpoint vbox_Render (children : list Element) (y : Z) (box : Box)
  (screen : Screen) : Screen :=
  match children with
  | [] => screen
  | e :: rest =>
      let child_box :=
        mkBox (x_min box) (x_max box) y (Z.min (y + min_y e - 1) (y_max box)) in
      vbox_Render rest (y + min_y e) box (Render e child_box screen)
  end.

Definition vbox (children : list Element) : Element :=
  mkElement
    (fold_right (fun e acc => Z.max (min_x e) acc) 0 children)
    (fold_right (fun e acc => min_y e + acc) 0 children)
    (fun box => vbox_Render children (y_min box) box).

(** ** [PositionAndSize] (window.cpp, lines 15-31) *)
Definition PositionAndSize (left top width height : Z) (element : Element)
  : Element :=
  let element := size WIDTH width element in
  let element := size HEIGHT height element in
  let padding_left := size WIDTH left emptyElement in
  let padding_top := size HEIGHT top emptyElement in
  vbox [ padding_top; hbox [ padding_left; element ] ].

(** ** [DropShadowDecorator] (window.cpp, lines 33-58) *)

(** The values taken by the counter of [for (int i = lo; i <= hi; ++i)]
    and of [for (int i = lo; i < hi; ++i)]: [hi - lo + 1] of them, and
    [hi - lo], counted up from [lo] (the first loop ends only when [hi] is
    below the largest [int]). *)
Fixpoint count_up (n : nat) (i : Z) : list Z :=
  match n with
  | O => []
  | S n' => i :: count_up n' (i +i 1)
  end.

Definition loop_le (lo hi : Z) : list Z := count_up (Z.to_nat (hi - lo + 1)) lo.
Definition loop_lt (lo hi : Z) : list Z := count_up (Z.to_nat (hi - lo)) lo.

(** The cells reached through [screen.PixelAt] by the two loops, in order. *)
Definition right_side (box : Box) : list (Z * Z) :=
  map (fun y => (x_max box +i 1, y +i 1)) (loop_le (y_min box) (y_max box)).

Definition bottom_side (box : Box) : list (Z * Z) :=
  map (fun x => (x +i 1, y_max box +i 1)) (loop_lt (x_min box) (x_max box)).

Definition shadow_Pixel : Pixel := mkPixel GrayDark Black false.

Definition paint_shadow (screen : Screen) (cell : Z * Z) : Screen :=
  set_PixelAt screen (fst cell) (snd cell) shadow_Pixel.

Definition DropShadowDecorator (child : Element) : Element :=
  mkElement (min_x child) (min_y child)
    (fun box screen =>
       let screen := Render child box screen in
       let screen := fold_left paint_shadow (right_side box) screen in
       fold_left paint_shadow (bottom_side box) screen).

(** ** The mouse and the events *)

(** Modelled from the spec: the external pointer event
    (ftxui/component/mouse.hpp and event.hpp), with its button, its kind of
    motion and its position; every event that is not a pointer event is
    [Event_Other]. *)
Module Mouse.
Inductive Button : Type :=
| Left | Middle | Right | NoButton | WheelUp | WheelDown.
Inductive Motion : Type := Released | Pressed | Moved.
Record t : Type := mk {
  button : Button;
  motion : Motion;
  x : Z;
  y : Z
}.
Definition is_Left (b : Button) : bool :=
  match b with Left => true | _ => false end.
Definition is_Released (m : Motion) : bool :=
  match m with Released => true | _ => false end.
Definition is_Pressed (m : Motion) : bool :=
  match m with Pressed => true | _ => false end.
End Mouse.

Inductive Event : Type :=
| Event_Mouse (mouse : Mouse.t)
| Event_Other.

(** Modelled from the spec: the capture token, exclusive ownership of the
    pointer for one gesture.  [CapturedMouse] is a [unique_ptr]: [None] is
    the null pointer, the answer of a failed acquisition. *)
Inductive CapturedMouseInterface : Type := CapturedMouseImpl.
Definition CapturedMouse : Type := option CapturedMouseInterface.

(** What the surrounding component tree answers during one call of
    [OnEvent]: whether the inner component handled the event
    ([ComponentBase::OnEvent]) and what the two calls of [CaptureMouse]
    (lines 162 and 173) return. *)
Record Env : Type := mkEnv {
  ComponentBase_OnEvent : bool;
  CaptureMouse_1 : CapturedMouse;
  CaptureMouse_2 : CapturedMouse
}.

(** Modelled from the spec: the snapshot handed to the renderer (declared in
    ftxui/component/component_options.hpp), in the order of lines 95-101:
    inner element, title, is-active, is-dragging, is-resizing. *)
Module WindowRenderState.
Record t : Type := mk {
  inner : Element;
  title : string;
  active : bool;
  drag : bool;
  resize : bool
}.
End WindowRenderState.

(** ** [WindowImpl]: the options it inherits and its private members *)
Record WindowImpl : Type := mkWindowImpl {
  title : string;
  left : Z;
  top : Z;
  width : Z;
  height : Z;
  resize : bool;
  render : option (WindowRenderState.t -> Element);
  box_ : Box;
  box_window_ : Box;
  captured_mouse_ : CapturedMouse;
  drag_start_x : Z;
  drag_start_y : Z;
  resize_start_x : Z;
  resize_start_y : Z;
  mouse_hover_ : bool;
  drag_ : bool;
  resize_bottom_right_ : bool;
  resize_bottom_right_hover_ : bool
}.

Definition set_left (v : Z) (w : WindowImpl) : WindowImpl :=
  mkWindowImpl
    (title w) v (top w) (width w) (height w) (resize w) (render w) (box_ w)
    (box_window_ w) (captured_mouse_ w) (drag_start_x w) (drag_start_y w)
    (resize_start_x w) (resize_start_y w) (mouse_hover_ w) (drag_ w)
    (resize_bottom_right_ w) (resize_bottom_right_hover_ w).

Definition set_top (v : Z) (w : WindowImpl) : WindowImpl :=
  mkWindowImpl
    (title w) (left w) v (width w) (height w) (resize w) (render w) (box_ w)
    (box_window_ w) (captured_mouse_ w) (drag_start_x w) (drag_start_y w)
    (resize_start_x w) (resize_start_y w) (mouse_hover_ w) (drag_ w)
    (resize_bottom_right_ w) (resize_bottom_right_hover_ w).

Definition set_width (v : Z) (w : WindowImpl) : WindowImpl :=
  mkWindowImpl
    (title w) (left w) (top w) v (height w) (resize w) (render w) (box_ w)
    (box_window_ w) (captured_mouse_ w) (drag_start_x w) (drag_start_y w)
    (resize_start_x w) (resize_start_y w) (mouse_hover_ w) (drag_ w)
    (resize_bottom_right_ w) (resize_bottom_right_hover_ w).

Definition set_height (v : Z) (w : WindowImpl) : WindowImpl :=
  mkWindowImpl
    (title w) (left w) (top w) (width w) v (resize w) (render w) (box_ w)
    (box_window_ w) (captured_mouse_ w) (drag_start_x w) (drag_start_y w)
    (resize_start_x w) (resize_start_y w) (mouse_hover_ w) (drag_ w)
    (resize_bottom_right_ w) (resize_bottom_right_hover_ w).

Definition set_box_ (v : Box) (w : WindowImpl) : WindowImpl :=
  mkWindowImpl
    (title w) (left w) (top w) (width w) (height w) (resize w) (render w) v
    (box_window_ w) (captured_mouse_ w) (drag_start_x w) (drag_start_y w)
    (resize_start_x w) (resize_start_y w) (mouse_hover_ w) (drag_ w)
    (resize_bottom_right_ w) (resize_bottom_right_hover_ w).

Definition set_box_window_ (v : Box) (w : WindowImpl) : WindowImpl :=
  mkWindowImpl
    (title w) (left w) (top w) (width w) (height w) (resize w) (render w)
    (box_ w) v (captured_mouse_ w) (drag_start_x w) (drag_start_y w)
    (resize_start_x w) (resize_start_y w) (mouse_hover_ w) (drag_ w)
    (resize_bottom_right_ w) (resize_bottom_right_hover_ w).

Definition set_captured_mouse_ (v : CapturedMouse) (w : WindowImpl) : WindowImpl :=
  mkWindowImpl
    (title w) (left w) (top w) (width w) (height w) (resize w) (render w)
    (box_ w) (box_window_ w) v (drag_start_x w) (drag_start_y w)
    (resize_start_x w) (resize_start_y w) (mouse_hover_ w) (drag_ w)
    (resize_bottom_right_ w) (resize_bottom_right_hover_ w).

Definition set_drag_start_x (v : Z) (w : WindowImpl) : WindowImpl :=
  mkWindowImpl
    (title w) (left w) (top w) (width w) (height w) (resize w) (render w)
    (box_ w) (box_window_ w) (captured_mouse_ w) v (drag_start_y w)
    (resize_start_x w) (resize_start_y w) (mouse_hover_ w) (drag_ w)
    (resize_bottom_right_ w) (resize_bottom_right_hover_ w).

Definition set_drag_start_y (v : Z) (w : WindowImpl) : WindowImpl :=
  mkWindowImpl
    (title w) (left w) (top w) (width w) (height w) (resize w) (render w)
    (box_ w) (box_window_ w) (captured_mouse_ w) (drag_start_x w) v
    (resize_start_x w) (resize_start_y w) (mouse_hover_ w) (drag_ w)
    (resize_bottom_right_ w) (resize_bottom_right_hover_ w).

Definition set_resize_start_x (v : Z) (w : WindowImpl) : WindowImpl :=
  mkWindowImpl
    (title w) (left w) (top w) (width w) (height w) (resize w) (render w)
    (box_ w) (box_window_ w) (captured_mouse_ w) (drag_start_x w)
    (drag_start_y w) v (resize_start_y w) (mouse_hover_ w) (drag_ w)
    (resize_bottom_right_ w) (resize_bottom_right_hover_ w).

Definition set_resize_start_y (v : Z) (w : WindowImpl) : WindowImpl :=
  mkWindowImpl
    (title w) (left w) (top w) (width w) (height w) (resize w) (render w)
    (box_ w) (box_window_ w) (captured_mouse_ w) (drag_start_x w)
    (drag_start_y w) (resize_start_x w) v (mouse_hover_ w) (drag_ w)
    (resize_bottom_right_ w) (resize_bottom_right_hover_ w).

Definition set_mouse_hover_ (v : bool) (w : WindowImpl) : WindowImpl :=
  mkWindowImpl
    (title w) (left w) (top w) (width w) (height w) (resize w) (render w)
    (box_ w) (box_window_ w) (captured_mouse_ w) (drag_start_x w)
    (drag_start_y w) (resize_start_x w) (resize_start_y w) v (drag_ w)
    (resize_bottom_right_ w) (resize_bottom_right_hover_ w).

Definition set_drag_ (v : bool) (w : WindowImpl) : WindowImpl :=
  mkWindowImpl
    (title w) (left w) (top w) (width w) (height w) (resize w) (render w)
    (box_ w) (box_window_ w) (captured_mouse_ w) (drag_start_x w)
    (drag_start_y w) (resize_start_x w) (resize_start_y w) (mouse_hover_ w) v
    (resize_bottom_right_ w) (resize_bottom_right_hover_ w).

Definition set_resize_bottom_right_ (v : bool) (w : WindowImpl) : WindowImpl :=
  mkWindowImpl
    (title w) (left w) (top w) (width w) (height w) (resize w) (render w)
    (box_ w) (box_window_ w) (captured_mouse_ w) (drag_start_x w)
    (drag_start_y w) (resize_start_x w) (resize_start_y w) (mouse_hover_ w)
    (drag_ w) v (resize_bottom_right_hover_ w).

Definition set_resize_bottom_right_hover_ (v : bool) (w : WindowImpl) : WindowImpl :=
  mkWindowImpl
    (title w) (left w) (top w) (width w) (height w) (resize w) (render w)
    (box_ w) (box_window_ w) (captured_mouse_ w) (drag_start_x w)
    (drag_start_y w) (resize_start_x w) (resize_start_y w) (mouse_hover_ w)
    (drag_ w) (resize_bottom_right_ w) v.

(** The constructor: the options as given, every private member at its
    default. *)
Definition Window (title : string) (left top width height : Z)
  (resize : bool) (render : option (WindowRenderState.t -> Element))
  : WindowImpl :=
  mkWindowImpl title left top width height resize render
    default_Box default_Box None 0 0 0 0 false false false false.

Section Renderer.

(** The element combinators of ftxui/dom that [DefaultRenderState] calls;
    their code is not part of window.cpp. *)
Variable text : string -> Element.
Variables center dim clear_under : Element -> Element.
Variable window : Element -> Element -> bool -> Element.
Variable bgcolor : Color -> Element -> Element.

(** [DefaultRenderState] (lines 61-77) *)
Definition DefaultRenderState (state : WindowRenderState.t) : Element :=
  let element := WindowRenderState.inner state in
  let titleElement := center (text (WindowRenderState.title state)) in
  let element :=
    if negb (WindowRenderState.active state) then dim element else element in
  let titleElement :=
    if negb (WindowRenderState.active state) then dim titleElement
    else titleElement in
  let element := window titleElement element (WindowRenderState.active state) in
  let element := bgcolor Cyan element in
  let element := clear_under element in
  DropShadowDecorator element.

(** The element chosen at line 103, before it is positioned. *)
Definition rendered_state (w : WindowImpl) (state : WindowRenderState.t)
  : Element :=
  match render w with
  | Some f => f state
  | None => DefaultRenderState state
  end.

(** [WindowImpl::Render] (lines 89-111).  [element] is what
    [ComponentBase::Render] returns and [active] what [Active()] returns.
    The two [reflect] decorators draw nothing; the boxes they record are
    the [Frame] action below. *)
Definition WindowImpl_Render (w : WindowImpl) (element : Element)
  (active : bool) : Element :=
  let state :=
    WindowRenderState.mk element (title w) active (drag_ w)
      (resize_bottom_right_ w) in
  let element := rendered_state w state in
  PositionAndSize (left w) (top w) (width w) (height w) element.

End Renderer.

(** ** [WindowImpl::OnEvent] (lines 113-188) *)

(** [title().size() + 2] is computed in [size_t]; [std::max<int>] takes it
    as an [int]. *)
Definition min_width (w : WindowImpl) : Z :=
  CInt.to_int (CInt.to_size_t (Z.of_nat (String.length (title w)) + 2)).

(** Lines 122-131: the hover flags. *)
Definition update_hover (mouse : Mouse.t) (w : WindowImpl) : WindowImpl :=
  let w :=
    set_mouse_hover_
      (Contain (box_window_ w) (Mouse.x mouse) (Mouse.y mouse)) w in
  let w := set_resize_bottom_right_hover_ false w in
  if mouse_hover_ w then
    let w :=
      set_resize_bottom_right_hover_
        ((Mouse.x mouse =? x_max (box_window_ w))
         && (Mouse.y mouse =? y_max (box_window_ w))) w in
    set_resize_bottom_right_hover_
      (resize_bottom_right_hover_ w && resize w) w
  else w.

(** Lines 134-153: the mouse is captured. *)
Definition OnEvent_captured (mouse : Mouse.t) (w : WindowImpl)
  : WindowImpl * bool :=
  if Mouse.is_Released (Mouse.motion mouse) then
    (set_captured_mouse_ None w, true)
  else
    let w :=
      if resize_bottom_right_ w then
        let w :=
          set_width (Mouse.x mouse -i resize_start_x w -i x_min (box_ w)) w in
        set_height (Mouse.y mouse -i resize_start_y w -i y_min (box_ w)) w
      else w in
    let w :=
      if drag_ w then
        let w :=
          set_left (Mouse.x mouse -i drag_start_x w -i x_min (box_ w)) w in
        set_top (Mouse.y mouse -i drag_start_y w -i y_min (box_ w)) w
      else w in
    let w := set_width (CInt.max (width w) (min_width w)) w in
    let w := set_height (CInt.max (height w) 2) w in
    (w, true).

(** Lines 156-187: the mouse is not captured. *)
Definition OnEvent_free (env : Env) (mouse : Mouse.t) (w : WindowImpl)
  : WindowImpl * bool :=
  let w := set_resize_bottom_right_ false w in
  if negb (mouse_hover_ w) then (w, false)
  else
    match CaptureMouse_1 env with
    | None => (w, true)
    | Some _ =>
        if negb (Mouse.is_Left (Mouse.button mouse))
           || negb (Mouse.is_Pressed (Mouse.motion mouse))
        then (w, true)
        else
          (* TakeFocus() acts on the component tree only. *)
          let w := set_captured_mouse_ (CaptureMouse_2 env) w in
          match captured_mouse_ w with
          | None => (w, true)
          | Some _ =>
              let w :=
                set_resize_bottom_right_ (resize_bottom_right_hover_ w) w in
              let w :=
                set_resize_start_x
                  (Mouse.x mouse -i width w -i x_min (box_ w)) w in
              let w :=
                set_resize_start_y
                  (Mouse.y mouse -i height w -i y_min (box_ w)) w in
              let w :=
                set_drag_start_x
                  (Mouse.x mouse -i left w -i x_min (box_ w)) w in
              let w :=
                set_drag_start_y
                  (Mouse.y mouse -i top w -i y_min (box_ w)) w in
              let w := set_drag_ (negb (resize_bottom_right_ w)) w in
              (w, true)
          end
    end.

Definition OnEvent (env : Env) (event : Event) (w : WindowImpl)
  : WindowImpl * bool :=
  if ComponentBase_OnEvent env then (w, true)
  else
    match event with
    | Event_Other => (w, false)
    | Event_Mouse mouse =>
        let w := update_hover mouse w in
        match captured_mouse_ w with
        | Some _ => OnEvent_captured mouse w
        | None => OnEvent_free env mouse w
        end
    end.

(** ** Runs of the window

    Between two events the screen may draw a frame: the two [reflect]
    decorators of [WindowImpl::Render] then store the boxes chosen by the
    layout in [box_] and [box_window_]. *)
Inductive Action : Type :=
| Handle (env : Env) (event : Event)
| Frame (box box_window : Box).

Definition step (w : WindowImpl) (a : Action) : WindowImpl :=
  match a with
  | Handle env event => fst (OnEvent env event w)
  | Frame box box_window => set_box_ box (set_box_window_ box_window w)
  end.

Definition run (w : WindowImpl) (actions : list Action) : WindowImpl :=
  fold_left step actions w.

Inductive reachable : WindowImpl -> Prop :=
| reachable_Window : forall title left top width height resize render,
    reachable (Window title left top width height resize render)
| reachable_step : forall w a, reachable w -> reachable (step w a).

(** ** Gestures

    A gesture starts with a left press that obtains the capture and lasts
    until a release reaches the window. *)
Definition press (x y : Z) : Event :=
  Event_Mouse (Mouse.mk Mouse.Left Mouse.Pressed x y).

Definition move (x y : Z) : Event :=
  Event_Mouse (Mouse.mk Mouse.Left Mouse.Moved x y).

Definition release (x y : Z) : Event :=
  Event_Mouse (Mouse.mk Mouse.Left Mouse.Released x y).

(** The inner component leaves the event to the window and the screen
    grants the capture. *)
Definition granted : Env :=
  mkEnv false (Some CapturedMouseImpl) (Some CapturedMouseImpl).

(** The inner component leaves the event to the window and the capture is
    held by someone else. *)
Definition denied : Env := mkEnv false None None.

Definition grants (env : Env) : Prop :=
  ComponentBase_OnEvent env = false
  /\ CaptureMouse_1 env <> None /\ CaptureMouse_2 env <> None.

(** The pointer of an action that the captured branch takes as a motion:
    a mouse event, other than a release, that the inner component did not
    handle. *)
Definition moved (a : Action) : option Mouse.t :=
  match a with
  | Handle env (Event_Mouse mouse) =>
      if ComponentBase_OnEvent env || Mouse.is_Released (Mouse.motion mouse)
      then None else Some mouse
  | _ => None
  end.

(** A release that reaches the window. *)
Definition releases (a : Action) : bool :=
  match a with
  | Handle env (Event_Mouse mouse) =>
      negb (ComponentBase_OnEvent env) && Mouse.is_Released (Mouse.motion mouse)
  | _ => false
  end.

(** A frame that leaves the origin of [box_] where it was. *)
Definition keeps_origin (x0 y0 : Z) (a : Action) : bool :=
  match a with
  | Frame box _ => (x_min box =? x0) && (y_min box =? y0)
  | Handle _ _ => true
  end.

(** The actions that may come between the press and the release. *)
Definition during_gesture (x0 y0 : Z) (a : Action) : bool :=
  negb (releases a) && keeps_origin x0 y0 a.

Fixpoint last_motion (actions : list Action) : option Mouse.t :=
  match actions with
  | [] => None
  | a :: rest =>
      match last_motion rest with
      | Some mouse => Some mouse
      | None => moved a
      end
  end.

Definition geometry (w : WindowImpl) : Z * Z * Z * Z :=
  (left w, top w, width w, height w).

Definition title_length (w : WindowImpl) : Z :=
  Z.of_nat (String.length (title w)).

(** What a gesture fixes at the press: which of the two it is, the origin
    of [box_], the four offsets, and the options. *)
Record Gesture : Type := mkGesture {
  resizing : bool;
  origin_x : Z;
  origin_y : Z;
  start_drag_x : Z;
  start_drag_y : Z;
  start_resize_x : Z;
  start_resize_y : Z;
  gesture_title : string;
  gesture_resize : bool
}.

Definition in_gesture (g : Gesture) (w : WindowImpl) : Prop :=
  captured_mouse_ w <> None
  /\ resize_bottom_right_ w = resizing g
  /\ drag_ w = negb (resizing g)
  /\ x_min (box_ w) = origin_x g
  /\ y_min (box_ w) = origin_y g
  /\ drag_start_x w = start_drag_x g
  /\ drag_start_y w = start_drag_y g
  /\ resize_start_x w = start_resize_x g
  /\ resize_start_y w = start_resize_y g
  /\ title w = gesture_title g
  /\ resize w = gesture_resize g.

(** The gesture that a press at [(x, y)] starts on [w]. *)
Definition gesture_of_press (w : WindowImpl) (x y : Z) : Gesture :=
  mkGesture
    ((x =? x_max (box_window_ w)) && (y =? y_max (box_window_ w)) && resize w)
    (x_min (box_ w)) (y_min (box_ w))
    (x -i left w -i x_min (box_ w)) (y -i top w -i y_min (box_ w))
    (x -i width w -i x_min (box_ w)) (y -i height w -i y_min (box_ w))
    (title w) (resize w).

Definition cell_eq_dec (a b : Z * Z) : {a = b} + {a <> b}.
Proof. decide equality; apply Z.eq_dec. Defined.

(** ** A window on a screen, for the examples

    The window "Hi" of the scenario: left = 0, top = 0, width = 10,
    height = 5, resizable, drawn once on an 80 x 24 screen. *)
Definition Hi : WindowImpl := Window "Hi" 0 0 10 5 true None.

Definition first_frame : Action := Frame (mkBox 0 79 0 23) (mkBox 0 9 0 4).

Definition Hi_drawn : WindowImpl := step Hi first_frame.

(** The same window while its body is being dragged, and after the button
    has been released. *)
Definition Hi_dragged : WindowImpl :=
  step Hi_drawn (Handle granted (press 3 1)).

Definition Hi_dropped : WindowImpl :=
  step Hi_dragged (Handle granted (release 3 1)).

(** A narrow window: its width is below [title().size() + 2]. *)
Definition Hello_drawn : WindowImpl :=
  step (Window "Hello" 0 0 3 5 true None)
       (Frame (mkBox 0 79 0 23) (mkBox 0 2 0 4)).

(** A window whose renderer is overridden: it shows the inner element as
    it is. *)
Definition Bare : WindowImpl :=
  Window "Hi" 0 0 10 5 true (Some WindowRenderState.inner).

(** An element that marks the top-left cell of its box. *)
Definition dot : Element :=
  mkElement 1 1
    (fun box screen => set_PixelAt screen (x_min box) (y_min box) shadow_Pixel).

(** The two flags, in every state the window can reach. *)
Definition flags_consistent (w : WindowImpl) : Prop :=
  (captured_mouse_ w <> None -> drag_ w = negb (resize_bottom_right_ w))
  /\ drag_ w && resize_bottom_right_ w = false.

(** The cell below and to the right of the bottom-right corner of a box:
    the corner of its shadow. *)
Definition corner (box : Box) : Z * Z := (x_max box + 1, y_max box + 1).

(** The box in which [PositionAndSize left top width height] draws its
    element when it is itself given [box]. *)
Definition placed (left top width height : Z) (box : Box) : Box :=
  mkBox (x_min box + left)
        (Z.min (x_min box + left + width - 1) (x_max box))
        (y_min box + top)
        (Z.min (y_min box + top + height - 1) (y_max box)).

(** The screen of the examples: 80 columns, 24 rows. *)
Definition terminal : Box := mkBox 0 79 0 23.

(** Stand-ins for the combinators of ftxui/dom in the examples: a text
    that draws nothing and decorators that leave their element as it is. *)
Definition no_text (_ : string) : Element := emptyElement.
Definition as_is (e : Element) : Element := e.
Definition plain_window (_ element : Element) (_ : bool) : Element := element.
Definition plain_bgcolor (_ : Color) (e : Element) : Element := e.

(** The render state of "Hi" with an empty inner element. *)
Definition Hi_state : WindowRenderState.t :=
  WindowRenderState.mk emptyElement "Hi" true false false.

(** An action that can start a gesture: a left press that reaches the
    window while the screen grants the capture at both calls. *)
Definition may_start (a : Action) : bool :=
  match a with
  | Handle env (Event_Mouse mouse) =>
      negb (ComponentBase_OnEvent env)
      && Mouse.is_Left (Mouse.button mouse)
      && Mouse.is_Pressed (Mouse.motion mouse)
      && match CaptureMouse_1 env with Some _ => true | None => false end
      && match CaptureMouse_2 env with Some _ => true | None => false end
  | _ => false
  end.

(** The two bounds that the clamp of lines 150-151 establishes. *)
Definition within_minimum (w : WindowImpl) : Prop :=
  min_width w <= width w /\ 2 <= height w.

(** The actions that are events, not frames. *)
Definition is_event (a : Action) : bool :=
  match a with
  | Handle _ _ => true
  | Frame _ _ => false
  end.

(** * Properties *)

(** ** Arithmetic of [int] *)
Section CIntFacts.

Import CInt.


Lemma to_int_id (z : Z) : in_range z -> to_int z = z.
Proof.
  unfold in_range, to_int, min_int, max_int; intros Hz.
  rewrite Z.mod_small by lia.
  lia.
Qed.

Lemma to_int_sub_l (a b : Z) : to_int (to_int a - b) = to_int (a - b).
Proof.
  unfold to_int.
  replace ((a + 2 ^ 31) mod 2 ^ 32 - 2 ^ 31 - b + 2 ^ 31)
    with ((a + 2 ^ 31) mod 2 ^ 32 - b) by ring.
  rewrite Zminus_mod_idemp_l.
  do 2 f_equal; ring.
Qed.

Lemma to_int_sub_r (a b : Z) : to_int (a - to_int b) = to_int (a - b).
Proof.
  unfold to_int.
  replace (a - ((b + 2 ^ 31) mod 2 ^ 32 - 2 ^ 31) + 2 ^ 31)
    with (a + 2 ^ 31 + 2 ^ 31 - (b + 2 ^ 31) mod 2 ^ 32) by ring.
  rewrite Zminus_mod_idemp_r.
  do 2 f_equal; ring.
Qed.

Lemma to_int_add_r (a b : Z) : to_int (a + to_int b) = to_int (a + b).
Proof.
  unfold to_int.
  replace (a + ((b + 2 ^ 31) mod 2 ^ 32 - 2 ^ 31) + 2 ^ 31)
    with (a + (b + 2 ^ 31) mod 2 ^ 32) by ring.
  rewrite Zplus_mod_idemp_r.
  do 2 f_equal; ring.
Qed.

(** The pointer minus the offset taken at the press minus the origin is the
    value at the press plus the displacement of the pointer. *)
Lemma offset_displacement (p p0 v o : Z) :
  p -i (p0 -i v -i o) -i o = v +i (p -i p0).
Proof.
  unfold sub, add.
  rewrite to_int_sub_l, to_int_add_r.
  replace (p - to_int (to_int (p0 - v) - o) - o)
    with (p - o - to_int (to_int (p0 - v) - o)) by ring.
  rewrite to_int_sub_r, <- (to_int_sub_r (p - o)).
  rewrite to_int_sub_l, to_int_sub_r.
  f_equal; ring.
Qed.


Lemma add_1_in_range (z : Z) : min_int <= z < max_int -> z +i 1 = z + 1.
Proof.
  intros Hz; unfold add; apply to_int_id.
  unfold in_range; lia.
Qed.

End CIntFacts.

(** ** One call of [OnEvent] *)

(** Lines 122-131 in one assignment per flag. *)
Lemma update_hover_eq (mouse : Mouse.t) (w : WindowImpl) :
  update_hover mouse w =
    set_resize_bottom_right_hover_
      (Contain (box_window_ w) (Mouse.x mouse) (Mouse.y mouse)
       && ((Mouse.x mouse =? x_max (box_window_ w))
           && (Mouse.y mouse =? y_max (box_window_ w)) && resize w))
      (set_mouse_hover_
         (Contain (box_window_ w) (Mouse.x mouse) (Mouse.y mouse)) w).
Proof.
  unfold update_hover; cbn.
  destruct (Contain (box_window_ w) (Mouse.x mouse) (Mouse.y mouse));
    reflexivity.
Qed.

(** Evaluation of the handler: the members of the window are computed one
    assignment after the other, the arithmetic is left as it stands. *)
Ltac eval_window :=
  cbv beta iota zeta delta
    [OnEvent OnEvent_captured OnEvent_free step geometry
     min_width title_length fst snd
     set_left set_top set_width set_height set_box_ set_box_window_
     set_captured_mouse_ set_drag_start_x set_drag_start_y
     set_resize_start_x set_resize_start_y set_mouse_hover_ set_drag_
     set_resize_bottom_right_ set_resize_bottom_right_hover_
     title left top width height resize render box_ box_window_
     captured_mouse_ drag_start_x drag_start_y resize_start_x resize_start_y
     mouse_hover_ drag_ resize_bottom_right_ resize_bottom_right_hover_
     Mouse.button Mouse.motion Mouse.x Mouse.y press move release];
  cbn [negb andb orb].

Ltac not_a_value t :=
  lazymatch t with
  | true => fail
  | false => fail
  | None => fail
  | Some _ => fail
  | _ => idtac
  end.

(** The tests whose outcome is among the hypotheses. *)
Ltac known_cases :=
  repeat match goal with
    | H : ?b = true |- context [?b] => not_a_value b; rewrite H
    | H : ?b = false |- context [?b] => not_a_value b; rewrite H
    | H : ?o = None |- context [?o] => not_a_value o; rewrite H
    | H : ?o = Some _ |- context [?o] => not_a_value o; rewrite H
    end.

Ltac settle := repeat progress (known_cases; eval_window).

Ltac split_cases :=
  settle;
  repeat (match goal with
          | |- context [if ?b then _ else _] => destruct b eqn:?
          | |- context [match ?o with Some _ => _ | None => _ end] =>
              destruct o eqn:?
          end; settle).

(** Closes [a = c] from [H : a = b] when [b] evaluates to [c]. *)
Ltac rewrite_by H := etransitivity; [exact H | reflexivity].

(** The window and the pointer are taken apart first, so that every member
    is a variable of its own, and the two gesture flags are told apart. *)
Ltac open_window w :=
  let dragging := fresh "dragging" in
  let resizing := fresh "resizing" in
  destruct w as [? ? ? ? ? ? ? ? ? ? ? ? ? ? ? dragging resizing ?];
  cbn in * |-; subst;
  try destruct dragging; try destruct resizing.

Ltac event_cases w mouse :=
  unfold OnEvent; rewrite ?update_hover_eq;
  destruct mouse; open_window w; split_cases.

Lemma min_width_title (w : WindowImpl) :
  title_length w + 2 <= CInt.max_int -> min_width w = title_length w + 2.
Proof.
  unfold min_width, title_length, CInt.to_size_t, CInt.max_int; intros Hlen.
  rewrite Z.mod_small by lia.
  apply to_int_id; unfold CInt.in_range, CInt.min_int, CInt.max_int; lia.
Qed.

(** What a motion does while the mouse is captured (lines 139-153). *)
Lemma OnEvent_motion (env : Env) (mouse : Mouse.t) (w : WindowImpl) :
  ComponentBase_OnEvent env = false ->
  captured_mouse_ w <> None ->
  Mouse.is_Released (Mouse.motion mouse) = false ->
  let w' := fst (OnEvent env (Event_Mouse mouse) w) in
  snd (OnEvent env (Event_Mouse mouse) w) = true
  /\ left w' =
       (if drag_ w then Mouse.x mouse -i drag_start_x w -i x_min (box_ w)
        else left w)
  /\ top w' =
       (if drag_ w then Mouse.y mouse -i drag_start_y w -i y_min (box_ w)
        else top w)
  /\ width w' =
       CInt.max
         (if resize_bottom_right_ w
          then Mouse.x mouse -i resize_start_x w -i x_min (box_ w)
          else width w)
         (min_width w)
  /\ height w' =
       CInt.max
         (if resize_bottom_right_ w
          then Mouse.y mouse -i resize_start_y w -i y_min (box_ w)
          else height w)
         2.
Proof.
  intros Hchild Hcap Hmotion.
  destruct (captured_mouse_ w) eqn:Hc; [clear Hcap | congruence].
  event_cases w mouse; auto.
Qed.

(** What a release does while the mouse is captured (lines 134-137). *)
Lemma OnEvent_release (env : Env) (mouse : Mouse.t) (w : WindowImpl) :
  ComponentBase_OnEvent env = false ->
  captured_mouse_ w <> None ->
  Mouse.is_Released (Mouse.motion mouse) = true ->
  let w' := fst (OnEvent env (Event_Mouse mouse) w) in
  snd (OnEvent env (Event_Mouse mouse) w) = true
  /\ captured_mouse_ w' = None
  /\ drag_ w' = drag_ w
  /\ resize_bottom_right_ w' = resize_bottom_right_ w
  /\ geometry w' = geometry w.
Proof.
  intros Hchild Hcap Hmotion.
  destruct (captured_mouse_ w) eqn:Hc; [clear Hcap | congruence].
  event_cases w mouse; auto.
Qed.

(** While the mouse is captured, an event changes neither the options, nor
    the boxes, nor the offsets, nor the two gesture flags, and a release
    alone drops the capture. *)
Lemma OnEvent_captured_frame (env : Env) (event : Event) (w : WindowImpl) :
  captured_mouse_ w <> None ->
  let w' := fst (OnEvent env event w) in
  title w' = title w
  /\ resize w' = resize w
  /\ box_ w' = box_ w
  /\ box_window_ w' = box_window_ w
  /\ drag_start_x w' = drag_start_x w
  /\ drag_start_y w' = drag_start_y w
  /\ resize_start_x w' = resize_start_x w
  /\ resize_start_y w' = resize_start_y w
  /\ drag_ w' = drag_ w
  /\ resize_bottom_right_ w' = resize_bottom_right_ w
  /\ (releases (Handle env event) = false ->
      captured_mouse_ w' = captured_mouse_ w).
Proof.
  intros Hcap.
  unfold releases.
  destruct (ComponentBase_OnEvent env) eqn:Hchild;
    [unfold OnEvent; rewrite Hchild; cbn; tauto | ].
  destruct event as [mouse | ];
    [ | unfold OnEvent; rewrite Hchild; cbn; tauto].
  destruct (captured_mouse_ w) eqn:Hc; [clear Hcap | congruence].
  destruct (Mouse.is_Released (Mouse.motion mouse)) eqn:Hmotion;
    event_cases w mouse; repeat split; auto; discriminate.
Qed.

(** ** Gestures *)

Lemma step_in_gesture (g : Gesture) (w : WindowImpl) (a : Action) :
  in_gesture g w ->
  during_gesture (origin_x g) (origin_y g) a = true ->
  in_gesture g (step w a).
Proof.
  unfold in_gesture, during_gesture.
  intros (Hcap & Hr & Hd & Hx & Hy & Hdx & Hdy & Hrx & Hry & Ht & Hopt) Ha.
  apply andb_true_iff in Ha as [Hrel Horigin].
  apply negb_true_iff in Hrel.
  destruct a as [env event | box box_window].
  - cbn [step].
    destruct (OnEvent_captured_frame env event w Hcap)
      as (Et & Eopt & Eb & _ & Edx & Edy & Erx & Ery & Ed & Er & Ecap).
    rewrite Et, Eopt, Eb, Edx, Edy, Erx, Ery, Ed, Er, (Ecap Hrel).
    tauto.
  - cbn in *.
    apply andb_true_iff in Horigin as [Ex Ey].
    apply Z.eqb_eq in Ex, Ey.
    tauto.
Qed.

Lemma run_in_gesture (g : Gesture) (actions : list Action) :
  forall w,
    in_gesture g w ->
    forallb (during_gesture (origin_x g) (origin_y g)) actions = true ->
    in_gesture g (run w actions).
Proof.
  induction actions as [ | a rest IH]; intros w Hg Hall; [exact Hg | ].
  cbn in Hall; apply andb_true_iff in Hall as [Ha Hrest].
  cbn; apply IH; [ | exact Hrest].
  now apply step_in_gesture.
Qed.

(** The geometry after one action of a gesture. *)
Lemma step_gesture_geometry (g : Gesture) (w : WindowImpl) (a : Action) :
  in_gesture g w ->
  during_gesture (origin_x g) (origin_y g) a = true ->
  match moved a with
  | None => geometry (step w a) = geometry w
  | Some mouse =>
      left (step w a) =
        (if resizing g then left w
         else Mouse.x mouse -i start_drag_x g -i origin_x g)
      /\ top (step w a) =
        (if resizing g then top w
         else Mouse.y mouse -i start_drag_y g -i origin_y g)
      /\ width (step w a) =
        CInt.max
          (if resizing g
           then Mouse.x mouse -i start_resize_x g -i origin_x g
           else width w)
          (min_width w)
      /\ height (step w a) =
        CInt.max
          (if resizing g
           then Mouse.y mouse -i start_resize_y g -i origin_y g
           else height w)
          2
  end.
Proof.
  unfold in_gesture, during_gesture.
  intros (Hcap & Hr & Hd & Hx & Hy & Hdx & Hdy & Hrx & Hry & Ht & Hopt) Ha.
  destruct a as [env event | box box_window]; [ | reflexivity].
  destruct event as [mouse | ].
  - cbn [moved step].
    destruct (ComponentBase_OnEvent env) eqn:Hchild.
    + cbn [orb]. unfold OnEvent; now rewrite Hchild.
    + cbn [orb].
      destruct (Mouse.is_Released (Mouse.motion mouse)) eqn:Hmotion.
      * cbn in Ha; rewrite Hchild, Hmotion in Ha; discriminate.
      * destruct (OnEvent_motion env mouse w Hchild Hcap Hmotion)
          as (_ & El & Et & Ew & Eh).
        rewrite El, Et, Ew, Eh, Hr, Hd, Hx, Hy, Hdx, Hdy, Hrx, Hry.
        destruct (resizing g); cbn; auto.
  - cbn. unfold OnEvent.
    destruct (ComponentBase_OnEvent env); reflexivity.
Qed.

Lemma granted_grants : grants granted.
Proof. repeat split; discriminate. Qed.

(** A left press inside the window that obtains the capture starts a
    gesture and leaves the geometry as it is (lines 156-187). *)
Lemma press_starts_gesture (w : WindowImpl) (env : Env) (x y : Z) :
  captured_mouse_ w = None ->
  grants env ->
  Contain (box_window_ w) x y = true ->
  in_gesture (gesture_of_press w x y) (step w (Handle env (press x y)))
  /\ geometry (step w (Handle env (press x y))) = geometry w.
Proof.
  intros Hcap (Hchild & Hc1 & Hc2) Hin.
  unfold in_gesture, gesture_of_press.
  destruct (CaptureMouse_1 env) eqn:E1; [ | congruence].
  destruct (CaptureMouse_2 env) eqn:E2; [ | congruence].
  unfold step, press; unfold OnEvent; rewrite update_hover_eq.
  destruct w; cbn in * |-; subst; settle.
  cbn; repeat split; auto; discriminate.
Qed.

(** During a drag, [left] and [top] are those of the last motion. *)
Lemma run_drag (g : Gesture) (actions : list Action) :
  resizing g = false ->
  forall w,
    in_gesture g w ->
    forallb (during_gesture (origin_x g) (origin_y g)) actions = true ->
    (left (run w actions), top (run w actions)) =
      match last_motion actions with
      | Some mouse =>
          (Mouse.x mouse -i start_drag_x g -i origin_x g,
           Mouse.y mouse -i start_drag_y g -i origin_y g)
      | None => (left w, top w)
      end.
Proof.
  intros Hdrag.
  induction actions as [ | a rest IH]; intros w Hg Hall; [reflexivity | ].
  cbn in Hall; apply andb_true_iff in Hall as [Ha Hrest].
  cbn [run fold_left last_motion].
  change (fold_left step rest (step w a)) with (run (step w a) rest).
  rewrite (IH (step w a) (step_in_gesture g w a Hg Ha) Hrest).
  destruct (last_motion rest); [reflexivity | ].
  pose proof (step_gesture_geometry g w a Hg Ha) as Hstep.
  destruct (moved a).
  - destruct Hstep as (El & Et & _).
    rewrite El, Et, Hdrag; reflexivity.
  - unfold geometry in Hstep; congruence.
Qed.

(** While the mouse is not captured, an event leaves the geometry, the
    dragging flag and the title as they are and clears the resizing flag
    unless it starts a gesture. *)
Lemma OnEvent_free_frame (env : Env) (event : Event) (w : WindowImpl) :
  captured_mouse_ w = None ->
  let w' := fst (OnEvent env event w) in
  geometry w' = geometry w
  /\ title w' = title w
  /\ (captured_mouse_ w' = None ->
      drag_ w' = drag_ w
      /\ (resize_bottom_right_ w' = false
          \/ resize_bottom_right_ w' = resize_bottom_right_ w))
  /\ (captured_mouse_ w' <> None ->
      drag_ w' = negb (resize_bottom_right_ w')).
Proof.
  intros Hcap.
  destruct (ComponentBase_OnEvent env) eqn:Hchild;
    [unfold OnEvent; rewrite Hchild; cbn; tauto | ].
  destruct event as [mouse | ];
    [ | unfold OnEvent; rewrite Hchild; cbn; tauto].
  event_cases w mouse; repeat split; auto; try congruence; discriminate.
Qed.

Lemma step_flags_consistent (w : WindowImpl) (a : Action) :
  flags_consistent w -> flags_consistent (step w a).
Proof.
  unfold flags_consistent; intros [Hone Hmost].
  destruct a as [env event | box box_window]; [ | exact (conj Hone Hmost)].
  cbn [step].
  destruct (captured_mouse_ w) eqn:Hc.
  - assert (Hcap : captured_mouse_ w <> None) by congruence.
    destruct (OnEvent_captured_frame env event w Hcap)
      as (_ & _ & _ & _ & _ & _ & _ & _ & Ed & Er & _).
    rewrite Ed, Er; split; [intros _; apply Hone; discriminate | exact Hmost].
  - destruct (OnEvent_free_frame env event w Hc) as (_ & _ & Hfree & Hstart).
    destruct (captured_mouse_ (fst (OnEvent env event w))) eqn:Hc'.
    + assert (Hd : drag_ (fst (OnEvent env event w)) =
                   negb (resize_bottom_right_ (fst (OnEvent env event w))))
        by (apply Hstart; discriminate).
      split; [intros _; exact Hd | ].
      rewrite Hd; apply andb_negb_l.
    + split; [congruence | ].
      destruct (Hfree eq_refl) as [Ed [Er | Er]]; rewrite Ed, Er;
        [apply andb_false_r | exact Hmost].
Qed.


(** ** The claims *)

(** C1 (amended).  For every press-drag-release sequence whose press lands
    inside the window and not on the resize handle (or with resizing
    disabled), the final (left, top) is the initial (left, top) plus the
    displacement of the pointer between the press and the last motion event
    handled before the release, whatever the number and the granularity of
    the events in between; with no motion event the window stays where it
    was.  The offset taken at the press is the one used throughout; the
    coordinates of the release event itself are not applied. *)
Theorem C1_drag_follows_last_motion
  (w : WindowImpl) (env : Env) (x0 y0 : Z) (mid : list Action)
  (release_env : Env) (release_mouse : Mouse.t) :
  captured_mouse_ w = None ->
  grants env ->
  Contain (box_window_ w) x0 y0 = true ->
  (x0 =? x_max (box_window_ w)) && (y0 =? y_max (box_window_ w)) && resize w
    = false ->
  forallb (during_gesture (x_min (box_ w)) (y_min (box_ w))) mid = true ->
  releases (Handle release_env (Event_Mouse release_mouse)) = true ->
  let w' :=
    run w (Handle env (press x0 y0)
             :: mid ++ [Handle release_env (Event_Mouse release_mouse)]) in
  captured_mouse_ w' = None
  /\ (left w', top w') =
       match last_motion mid with
       | Some mouse =>
           (left w +i (Mouse.x mouse -i x0), top w +i (Mouse.y mouse -i y0))
       | None => (left w, top w)
       end.
Proof.
  intros Hcap Hgrants Hin Hbody Hmid Hrel w'.
  destruct (press_starts_gesture w env x0 y0 Hcap Hgrants Hin) as [Hg Hgeo].
  set (g := gesture_of_press w x0 y0) in *.
  assert (Hdrag : resizing g = false) by exact Hbody.
  set (w1 := step w (Handle env (press x0 y0))) in *.
  pose proof (run_in_gesture g mid w1 Hg Hmid) as Hg2.
  pose proof (run_drag g mid Hdrag w1 Hg Hmid) as Hpos.
  set (w2 := run w1 mid) in *.
  assert (Ew' : w' = step w2 (Handle release_env (Event_Mouse release_mouse))).
  { subst w' w2 w1. cbn [run fold_left]. now rewrite fold_left_app. }
  unfold releases in Hrel.
  apply andb_true_iff in Hrel as [Hchild Hmotion].
  apply negb_true_iff in Hchild.
  destruct Hg2 as (Hcap2 & _).
  destruct (OnEvent_release release_env release_mouse w2 Hchild Hcap2 Hmotion)
    as (_ & Ecap & _ & _ & Egeo).
  rewrite Ew'; cbn [step].
  split; [exact Ecap | ].
  unfold geometry in Egeo, Hgeo.
  replace (left (fst (OnEvent release_env (Event_Mouse release_mouse) w2)))
    with (left w2) by congruence.
  replace (top (fst (OnEvent release_env (Event_Mouse release_mouse) w2)))
    with (top w2) by congruence.
  rewrite Hpos.
  destruct (last_motion mid) as [mouse | ].
  - subst g; cbn [start_drag_x start_drag_y origin_x origin_y gesture_of_press].
    now rewrite !offset_displacement.
  - congruence.
Qed.

(** The drag of the window "Hi" by (+4, +2) in two motions. *)
Lemma C1_drag_follows_last_motion_witness :
  let mid :=
    [Handle granted (move 5 2); first_frame; Handle granted (move 7 3)] in
  let w' :=
    run Hi_drawn
      (Handle granted (press 3 1) :: mid ++ [Handle granted (release 7 3)]) in
  captured_mouse_ w' = None /\ (left w', top w') = (4, 2).
Proof.
  apply (C1_drag_follows_last_motion Hi_drawn granted 3 1
           [Handle granted (move 5 2); first_frame; Handle granted (move 7 3)]
           granted (Mouse.mk Mouse.Left Mouse.Released 7 3)).
  - reflexivity.
  - exact granted_grants.
  - reflexivity.
  - reflexivity.
  - reflexivity.
  - reflexivity.
Defined.

(** C1, as it is stated, fails: a release away from the last motion (or
    with no motion at all) does not move the window to the release
    position.  The press at (3, 1) is on the body of "Hi"; the pointer is
    released at (6, 1), three cells to the right. *)
Lemma C1_release_position_not_applied :
  let quick :=
    run Hi_drawn [Handle granted (press 3 1); Handle granted (release 6 1)] in
  let slow :=
    run Hi_drawn
      [Handle granted (press 3 1); Handle granted (move 4 1);
       Handle granted (release 6 1)] in
  Contain (box_window_ Hi_drawn) 3 1 = true
  /\ (3 =? x_max (box_window_ Hi_drawn)) = false
  /\ left quick <> left Hi_drawn +i (6 -i 3)
  /\ left slow <> left Hi_drawn +i (6 -i 3)
  /\ left quick = 0
  /\ left slow = 1.
Proof. vm_compute. repeat split; discriminate. Qed.







Lemma reachable_flags_consistent (w : WindowImpl) :
  reachable w -> flags_consistent w.
Proof.
  induction 1 as [ | w a _ IH].
  - split; [intros Hcap; now elim Hcap | reflexivity].
  - now apply step_flags_consistent.
Qed.

Lemma reachable_Hi_dragged : reachable Hi_dragged.
Proof. repeat apply reachable_step. apply reachable_Window. Qed.

Lemma reachable_Hi_dropped : reachable Hi_dropped.
Proof. apply reachable_step, reachable_Hi_dragged. Qed.

(** C4 (amended).  In every state reachable by any sequence of events and
    frames, exactly one of the dragging and resizing flags is set while the
    capture token is held, which is when a gesture is in progress; when no
    token is held at most one of them is set (the flag of the last gesture
    may still be). *)
Theorem C4_flags_of_reachable_window (w : WindowImpl) :
  reachable w ->
  (captured_mouse_ w <> None -> drag_ w = negb (resize_bottom_right_ w))
  /\ (captured_mouse_ w = None -> drag_ w && resize_bottom_right_ w = false).
Proof.
  intros Hw.
  destruct (reachable_flags_consistent w Hw) as [Hone Hmost].
  split; [exact Hone | intros _; exact Hmost].
Qed.

Lemma C4_flags_of_reachable_window_witness :
  (captured_mouse_ Hi_dragged <> None ->
   drag_ Hi_dragged = negb (resize_bottom_right_ Hi_dragged))
  /\ (captured_mouse_ Hi_dragged = None ->
      drag_ Hi_dragged && resize_bottom_right_ Hi_dragged = false).
Proof.
  apply (C4_flags_of_reachable_window Hi_dragged).
  exact reachable_Hi_dragged.
Defined.

(** C4, as it is stated, fails: once "Hi" has been dragged and released no
    gesture is in progress, yet the dragging flag is set. *)
Lemma C4_drag_flag_outlives_gesture :
  reachable Hi_dropped
  /\ captured_mouse_ Hi_dropped = None
  /\ drag_ Hi_dropped = true.
Proof.
  split; [exact reachable_Hi_dropped | ].
  vm_compute; split; reflexivity.
Qed.

(** C5 (amended).  The handler changes the geometry only while the capture
    token is held, and after every such change width >= title length + 2
    and height >= 2 hold.  Nothing enforces the two bounds at creation or
    outside a gesture. *)
Theorem C5_mutation_restores_minimum (w : WindowImpl) (a : Action) :
  title_length w + 2 <= CInt.max_int ->
  geometry (step w a) <> geometry w ->
  captured_mouse_ w <> None
  /\ title_length (step w a) + 2 <= width (step w a)
  /\ 2 <= height (step w a).
Proof.
  intros Hlen Hchanged.
  destruct a as [env event | box box_window]; [ | now elim Hchanged].
  cbn [step] in *.
  destruct (captured_mouse_ w) eqn:Hc.
  2: { now destruct (OnEvent_free_frame env event w Hc) as (Egeo & _). }
  assert (Hcap : captured_mouse_ w <> None) by congruence.
  split; [discriminate | ].
  destruct (OnEvent_captured_frame env event w Hcap) as (Et & _).
  unfold title_length at 1; rewrite Et; fold (title_length w).
  destruct (ComponentBase_OnEvent env) eqn:Hchild.
  { unfold OnEvent in Hchanged; rewrite Hchild in Hchanged; now elim Hchanged. }
  destruct event as [mouse | ].
  2: { unfold OnEvent in Hchanged; rewrite Hchild in Hchanged;
       now elim Hchanged. }
  destruct (Mouse.is_Released (Mouse.motion mouse)) eqn:Hmotion.
  { now destruct (OnEvent_release env mouse w Hchild Hcap Hmotion)
      as (_ & _ & _ & _ & Egeo). }
  destruct (OnEvent_motion env mouse w Hchild Hcap Hmotion)
    as (_ & _ & _ & Ew & Eh).
  rewrite Ew, Eh, (min_width_title w Hlen).
  unfold CInt.max; lia.
Qed.

(** A drag of the narrow window "Hello": the first motion widens it. *)
Lemma C5_mutation_restores_minimum_witness :
  let w := step Hello_drawn (Handle granted (press 1 1)) in
  let a := Handle granted (move 2 1) in
  captured_mouse_ w <> None
  /\ title_length (step w a) + 2 <= width (step w a)
  /\ 2 <= height (step w a).
Proof.
  apply (C5_mutation_restores_minimum
           (step Hello_drawn (Handle granted (press 1 1)))
           (Handle granted (move 2 1))).
  - vm_compute; discriminate.
  - vm_compute; discriminate.
Defined.

(** C5, as it is stated, fails at creation and outside a gesture: "Hello"
    is created, drawn, hovered, pressed and released with a width of 3,
    below its title length + 2 = 7. *)
Lemma C5_minimum_not_enforced_at_creation :
  let created := Window "Hello" 0 0 3 5 true None in
  let idle :=
    run Hello_drawn
      [Handle granted (move 1 1); Handle granted (press 1 1);
       Handle granted (release 1 1)] in
  width created < title_length created + 2
  /\ width idle < title_length idle + 2.
Proof. vm_compute. split; reflexivity. Qed.

(** C6 (amended).  For every press inside the window, with no gesture in
    progress, for which the acquisition of the capture fails, the handler
    returns handled = true, no capture token is held afterwards, the
    resizing flag is cleared and the geometry is unchanged; the dragging
    flag keeps the value it had (it is set if an earlier drag left it so). *)
Theorem C6_failed_capture
  (w : WindowImpl) (env : Env) (mouse : Mouse.t) :
  captured_mouse_ w = None ->
  ComponentBase_OnEvent env = false ->
  Contain (box_window_ w) (Mouse.x mouse) (Mouse.y mouse) = true ->
  Mouse.button mouse = Mouse.Left ->
  Mouse.motion mouse = Mouse.Pressed ->
  CaptureMouse_1 env = None \/ CaptureMouse_2 env = None ->
  let w' := fst (OnEvent env (Event_Mouse mouse) w) in
  snd (OnEvent env (Event_Mouse mouse) w) = true
  /\ captured_mouse_ w' = None
  /\ resize_bottom_right_ w' = false
  /\ drag_ w' = drag_ w
  /\ geometry w' = geometry w.
Proof.
  intros Hcap Hchild Hin Hbutton Hmotion Hdenied.
  destruct Hdenied as [Hdenied | Hdenied];
    event_cases w mouse; repeat split; auto.
Qed.

Lemma C6_failed_capture_witness :
  let w' := fst (OnEvent denied (press 3 1) Hi_drawn) in
  snd (OnEvent denied (press 3 1) Hi_drawn) = true
  /\ captured_mouse_ w' = None
  /\ resize_bottom_right_ w' = false
  /\ drag_ w' = drag_ Hi_drawn
  /\ geometry w' = geometry Hi_drawn.
Proof.
  apply (C6_failed_capture Hi_drawn denied
           (Mouse.mk Mouse.Left Mouse.Pressed 3 1)).
  - reflexivity.
  - reflexivity.
  - reflexivity.
  - reflexivity.
  - reflexivity.
  - left; reflexivity.
Defined.

(** C6, as it is stated, fails: after "Hi" has been dragged and released, a
    press inside it whose capture fails is handled and starts no gesture,
    but the dragging flag is set afterwards. *)
Lemma C6_drag_flag_still_set :
  let w' := fst (OnEvent denied (press 3 1) Hi_dropped) in
  captured_mouse_ Hi_dropped = None
  /\ Contain (box_window_ Hi_dropped) 3 1 = true
  /\ snd (OnEvent denied (press 3 1) Hi_dropped) = true
  /\ captured_mouse_ w' = None
  /\ drag_ w' = true.
Proof. vm_compute. repeat split. Qed.

(** C7 (amended).  While the capture token is held, every pointer event, at
    any coordinates, is reported handled = true and leaves the title, the
    resize option, the two boxes, the four offsets and the two gesture
    flags unchanged; left and top change only in a drag; in a drag width
    and height change only where they are below their minimum, to which
    they are raised.  The hover flags are computed anew from the position
    of the pointer whenever the event reaches the window. *)
Theorem C7_captured_event_frame
  (w : WindowImpl) (env : Env) (mouse : Mouse.t) :
  captured_mouse_ w <> None ->
  let w' := fst (OnEvent env (Event_Mouse mouse) w) in
  snd (OnEvent env (Event_Mouse mouse) w) = true
  /\ title w' = title w
  /\ resize w' = resize w
  /\ box_ w' = box_ w
  /\ box_window_ w' = box_window_ w
  /\ (drag_start_x w', drag_start_y w') = (drag_start_x w, drag_start_y w)
  /\ (resize_start_x w', resize_start_y w')
     = (resize_start_x w, resize_start_y w)
  /\ drag_ w' = drag_ w
  /\ resize_bottom_right_ w' = resize_bottom_right_ w
  /\ (drag_ w = false -> left w' = left w /\ top w' = top w)
  /\ (resize_bottom_right_ w = false ->
      (width w' = width w \/ width w' = CInt.max (width w) (min_width w))
      /\ (height w' = height w \/ height w' = CInt.max (height w) 2))
  /\ (ComponentBase_OnEvent env = false ->
      mouse_hover_ w'
      = Contain (box_window_ w) (Mouse.x mouse) (Mouse.y mouse)).
Proof.
  intros Hcap.
  destruct (captured_mouse_ w) eqn:Hc; [clear Hcap | congruence].
  destruct (ComponentBase_OnEvent env) eqn:Hchild.
  { unfold OnEvent; rewrite Hchild; cbn.
    repeat split; auto; discriminate. }
  event_cases w mouse; repeat split; auto; discriminate.
Qed.

Lemma C7_captured_event_frame_witness :
  let w' := fst (OnEvent granted (move 100 100) Hi_dragged) in
  snd (OnEvent granted (move 100 100) Hi_dragged) = true
  /\ title w' = title Hi_dragged
  /\ drag_ w' = drag_ Hi_dragged
  /\ mouse_hover_ w' = false.
Proof.
  destruct (C7_captured_event_frame Hi_dragged granted
              (Mouse.mk Mouse.Left Mouse.Moved 100 100))
    as (Hhandled & Htitle & _ & _ & _ & _ & _ & Hdrag & _ & _ & _ & Hhover).
  - discriminate.
  - split; [exact Hhandled | ].
    split; [exact Htitle | ].
    split; [exact Hdrag | ].
    rewrite_by (Hhover eq_refl).
Defined.

(** C7, as it is stated, fails: while "Hi" is dragged a motion outside the
    window clears the hover flag, and the first motion of a drag of the
    narrow "Hello" changes its width. *)
Lemma C7_hover_and_size_change_in_drag :
  let hello := step Hello_drawn (Handle granted (press 1 1)) in
  captured_mouse_ Hi_dragged <> None
  /\ mouse_hover_ Hi_dragged = true
  /\ mouse_hover_ (fst (OnEvent granted (move 100 100) Hi_dragged)) = false
  /\ captured_mouse_ hello <> None
  /\ drag_ hello = true
  /\ width hello = 3
  /\ width (fst (OnEvent granted (move 1 1) hello)) = 7.
Proof. vm_compute. repeat split; discriminate. Qed.



(** ** The drop shadow *)

Lemma count_up_In (n : nat) :
  forall i v,
    CInt.min_int <= i ->
    i + Z.of_nat n <= CInt.max_int + 1 ->
    In v (count_up n i) <-> i <= v < i + Z.of_nat n.
Proof.
  induction n as [ | n IH]; intros i v Hlo Hhi.
  - cbn; lia.
  - cbn [count_up In].
    destruct n as [ | n'].
    + cbn; lia.
    + rewrite add_1_in_range by lia.
      rewrite IH by lia.
      lia.
Qed.

Lemma count_up_NoDup (n : nat) :
  forall i,
    CInt.min_int <= i ->
    i + Z.of_nat n <= CInt.max_int + 1 ->
    NoDup (count_up n i).
Proof.
  induction n as [ | n IH]; intros i Hlo Hhi; [constructor | ].
  cbn [count_up].
  destruct n as [ | n']; [repeat constructor; intros [] | ].
  rewrite add_1_in_range by lia.
  constructor; [ | apply IH; lia].
  rewrite count_up_In by lia.
  lia.
Qed.

Section Shadow.

Variable box : Box.
Hypothesis x_min_in_range : CInt.min_int <= x_min box.
Hypothesis y_min_in_range : CInt.min_int <= y_min box.
Hypothesis x_max_in_range : x_max box < CInt.max_int.
Hypothesis y_max_in_range : y_max box < CInt.max_int.
Hypothesis positive_width : x_min box <= x_max box.
Hypothesis positive_height : y_min box <= y_max box.

Lemma right_side_In (c : Z * Z) :
  In c (right_side box) <->
  fst c = x_max box + 1 /\ y_min box + 1 <= snd c <= y_max box + 1.
Proof.
  unfold right_side, loop_le.
  rewrite in_map_iff.
  rewrite (add_1_in_range (x_max box)) by lia.
  split.
  - intros (y & <- & Hy).
    rewrite count_up_In in Hy by lia.
    rewrite add_1_in_range by lia.
    cbn; lia.
  - intros [Hx Hy].
    exists (snd c - 1).
    rewrite count_up_In by lia.
    rewrite add_1_in_range by lia.
    destruct c as [cx cy]; cbn in *.
    split; [f_equal; lia | lia].
Qed.

Lemma bottom_side_In (c : Z * Z) :
  In c (bottom_side box) <->
  snd c = y_max box + 1 /\ x_min box + 1 <= fst c < x_max box + 1.
Proof.
  unfold bottom_side, loop_lt.
  rewrite in_map_iff.
  rewrite (add_1_in_range (y_max box)) by lia.
  split.
  - intros (x & <- & Hx).
    rewrite count_up_In in Hx by lia.
    rewrite add_1_in_range by lia.
    cbn; lia.
  - intros [Hy Hx].
    exists (fst c - 1).
    rewrite count_up_In by lia.
    rewrite add_1_in_range by lia.
    destruct c as [cx cy]; cbn in *.
    split; [f_equal; lia | lia].
Qed.

(** No cell is visited twice by the two loops. *)
Lemma shadow_NoDup : NoDup (right_side box ++ bottom_side box).
Proof.
  apply NoDup_app.
  - unfold right_side, loop_le.
    apply NoDup_map_NoDup_ForallPairs; [ | apply count_up_NoDup; lia].
    intros y1 y2 H1 H2 Heq.
    rewrite count_up_In in H1, H2 by lia.
    rewrite !add_1_in_range in Heq by lia.
    injection Heq; lia.
  - unfold bottom_side, loop_lt.
    apply NoDup_map_NoDup_ForallPairs; [ | apply count_up_NoDup; lia].
    intros x1 x2 H1 H2 Heq.
    rewrite count_up_In in H1, H2 by lia.
    rewrite !add_1_in_range in Heq by lia.
    injection Heq; lia.
  - intros c Hright Hbottom.
    apply right_side_In in Hright.
    apply bottom_side_In in Hbottom.
    lia.
Qed.

Lemma corner_in_right_side : In (corner box) (right_side box).
Proof. apply right_side_In; cbn; lia. Qed.

Lemma corner_not_in_bottom_side : ~ In (corner box) (bottom_side box).
Proof. rewrite bottom_side_In; cbn; lia. Qed.

End Shadow.

Lemma paint_shadow_keeps (cells : list (Z * Z)) :
  forall screen x y,
    screen x y = shadow_Pixel ->
    fold_left paint_shadow cells screen x y = shadow_Pixel.
Proof.
  induction cells as [ | c rest IH]; intros screen x y Hxy; [exact Hxy | ].
  cbn [fold_left]; apply IH.
  unfold paint_shadow, set_PixelAt.
  now destruct ((x =? fst c) && (y =? snd c)).
Qed.

Lemma paint_shadow_In (cells : list (Z * Z)) :
  forall screen c,
    In c cells ->
    fold_left paint_shadow cells screen (fst c) (snd c) = shadow_Pixel.
Proof.
  induction cells as [ | c' rest IH]; intros screen c Hin; [destruct Hin | ].
  cbn [fold_left].
  destruct Hin as [-> | Hin]; [ | now apply IH].
  apply paint_shadow_keeps.
  unfold paint_shadow, set_PixelAt.
  now rewrite !Z.eqb_refl.
Qed.

(** What the decorator draws: the child, then the two sides of the shadow. *)
Lemma DropShadowDecorator_Render
  (child : Element) (box : Box) (screen : Screen) :
  Render (DropShadowDecorator child) box screen =
    fold_left paint_shadow (right_side box ++ bottom_side box)
      (Render child box screen).
Proof. cbn. now rewrite fold_left_app. Qed.

(** C8 (amended).  Whenever the window is rendered by its default renderer
    (no render override is configured) in a box of positive width and
    height, a drop shadow is painted: the right-side sweep paints column
    x_max+1 for rows y_min+1 through y_max+1 inclusive, the bottom sweep
    paints row y_max+1 for the columns from x_min+1 up to, and strictly
    less than, x_max+1, and the corner cell (x_max+1, y_max+1) is painted
    by the right-side sweep only: exactly once. *)
Theorem C8_default_render_paints_shadow
  (text : string -> Element) (center dim clear_under : Element -> Element)
  (window : Element -> Element -> bool -> Element)
  (bgcolor : Color -> Element -> Element)
  (w : WindowImpl) (state : WindowRenderState.t) (box : Box)
  (screen : Screen) :
  render w = None ->
  x_min box <= x_max box ->
  y_min box <= y_max box ->
  CInt.min_int <= x_min box ->
  CInt.min_int <= y_min box ->
  x_max box < CInt.max_int ->
  y_max box < CInt.max_int ->
  let drawn :=
    Render (rendered_state text center dim clear_under window bgcolor w state)
      box screen in
  (forall c, In c (right_side box ++ bottom_side box) ->
             drawn (fst c) (snd c) = shadow_Pixel)
  /\ (forall c, In c (right_side box) <->
                fst c = x_max box + 1
                /\ y_min box + 1 <= snd c <= y_max box + 1)
  /\ (forall c, In c (bottom_side box) <->
                snd c = y_max box + 1
                /\ x_min box + 1 <= fst c < x_max box + 1)
  /\ In (corner box) (right_side box)
  /\ ~ In (corner box) (bottom_side box)
  /\ count_occ cell_eq_dec (right_side box ++ bottom_side box) (corner box)
     = 1%nat.
Proof.
  intros Hdefault Hwidth Hheight Hx_min Hy_min Hx_max Hy_max drawn.
  assert (Hcorner : In (corner box) (right_side box))
    by now apply corner_in_right_side.
  split; [ | split; [ | split; [ | split; [ | split]]]].
  - intros c Hc.
    subst drawn; unfold rendered_state; rewrite Hdefault.
    unfold DefaultRenderState.
    rewrite DropShadowDecorator_Render.
    now apply paint_shadow_In.
  - intros c; now apply right_side_In.
  - intros c; now apply bottom_side_In.
  - exact Hcorner.
  - now apply corner_not_in_bottom_side.
  - apply NoDup_count_occ'.
    + now apply shadow_NoDup.
    + apply in_or_app; now left.
Qed.

(** "Hi" in the box the layout gives it, columns 0-9 and rows 0-4: the
    corner of the shadow is the cell (10, 5). *)
Lemma C8_default_render_paints_shadow_witness :
  let drawn :=
    Render
      (rendered_state no_text as_is as_is as_is plain_window plain_bgcolor
         Hi Hi_state)
      (mkBox 0 9 0 4) blank_Screen in
  drawn 10 5 = shadow_Pixel
  /\ count_occ cell_eq_dec
       (right_side (mkBox 0 9 0 4) ++ bottom_side (mkBox 0 9 0 4)) (10, 5)
     = 1%nat.
Proof.
  destruct
    (C8_default_render_paints_shadow
       no_text as_is as_is as_is plain_window plain_bgcolor
       Hi Hi_state (mkBox 0 9 0 4) blank_Screen)
    as (Hpaint & _ & _ & Hcorner & _ & Hcount).
  - reflexivity.
  - vm_compute; discriminate.
  - vm_compute; discriminate.
  - vm_compute; discriminate.
  - vm_compute; discriminate.
  - reflexivity.
  - reflexivity.
  - split; [ | exact Hcount].
    exact (Hpaint (10, 5) (in_or_app _ _ _ (or_introl Hcorner))).
Defined.

(** C8, as it is stated, fails: a window whose renderer is overridden is
    rendered with width 10 and height 5 and no shadow is painted; the
    corner cell (10, 5) is left blank. *)
Lemma C8_override_paints_no_shadow :
  let element :=
    WindowImpl_Render no_text as_is as_is as_is plain_window plain_bgcolor
      Bare emptyElement true in
  let chosen :=
    rendered_state no_text as_is as_is as_is plain_window plain_bgcolor
      Bare Hi_state in
  0 < width Bare
  /\ 0 < height Bare
  /\ Render element terminal blank_Screen 10 5 = blank_Pixel
  /\ Render chosen (mkBox 0 9 0 4) blank_Screen 10 5 = blank_Pixel
  /\ blank_Pixel <> shadow_Pixel.
Proof. vm_compute. repeat split; discriminate. Qed.

(** ** The positioner *)

Lemma PositionAndSize_Render
  (left top width height : Z) (e : Element) (box : Box) (screen : Screen) :
  Render (PositionAndSize left top width height e) box screen =
    Render e (placed left top width height box) screen.
Proof.
  unfold PositionAndSize, placed; cbn.
  f_equal; f_equal; lia.
Qed.

(** C9 (amended).  The Positioner is idempotent when left = 0 and top = 0:
    for every (width, height), content, box and screen, applying the
    wrapper twice asks for the same size and draws the same as applying it
    once.  With any (left, top), the second application places the content
    once more: it is drawn in the box placed twice. *)
Theorem C9_PositionAndSize_twice
  (left top width height : Z) (e : Element) (box : Box) (screen : Screen) :
  let once := PositionAndSize left top width height e in
  let twice := PositionAndSize left top width height once in
  let once_at_origin := PositionAndSize 0 0 width height e in
  let twice_at_origin := PositionAndSize 0 0 width height once_at_origin in
  Render twice_at_origin box screen = Render once_at_origin box screen
  /\ min_x twice_at_origin = min_x once_at_origin
  /\ min_y twice_at_origin = min_y once_at_origin
  /\ Render twice box screen =
       Render e
         (placed left top width height (placed left top width height box))
         screen.
Proof.
  cbv zeta.
  rewrite !PositionAndSize_Render.
  repeat split.
  unfold placed; cbn.
  f_equal; f_equal; lia.
Qed.

(** C9, as it is stated, fails: with left = 1 the wrapper applied once
    draws the dot in column 1, applied twice in column 2. *)
Lemma C9_PositionAndSize_not_idempotent :
  let once := PositionAndSize 1 0 3 1 dot in
  let twice := PositionAndSize 1 0 3 1 once in
  Render once terminal blank_Screen 1 0 = shadow_Pixel
  /\ Render twice terminal blank_Screen 1 0 = blank_Pixel
  /\ Render twice terminal blank_Screen 2 0 = shadow_Pixel
  /\ Render twice terminal blank_Screen 1 0
     <> Render once terminal blank_Screen 1 0.
Proof. vm_compute. repeat split; discriminate. Qed.

(** * Further properties of the window *)

(** ** What an event never touches *)

Lemma OnEvent_options (env : Env) (event : Event) (w : WindowImpl) :
  let w' := fst (OnEvent env event w) in
  title w' = title w
  /\ resize w' = resize w
  /\ render w' = render w
  /\ box_ w' = box_ w
  /\ box_window_ w' = box_window_ w.
Proof.
  destruct (ComponentBase_OnEvent env) eqn:Hchild;
    [unfold OnEvent; rewrite Hchild; cbn; tauto | ].
  destruct event as [mouse | ];
    [ | unfold OnEvent; rewrite Hchild; cbn; tauto].
  destruct (captured_mouse_ w) eqn:Hc;
    event_cases w mouse; repeat split; auto.
Qed.

Lemma step_options (w : WindowImpl) (a : Action) :
  title (step w a) = title w
  /\ resize (step w a) = resize w
  /\ render (step w a) = render w
  /\ (is_event a = true ->
      box_ (step w a) = box_ w /\ box_window_ (step w a) = box_window_ w).
Proof.
  destruct a as [env event | box box_window].
  - destruct (OnEvent_options env event w) as (Et & Er & Eo & Eb & Ebw).
    cbn [step]; auto.
  - cbn; repeat split; discriminate.
Qed.

Lemma run_options (actions : list Action) (w : WindowImpl) :
  title (run w actions) = title w
  /\ resize (run w actions) = resize w
  /\ render (run w actions) = render w
  /\ (forallb is_event actions = true ->
      box_ (run w actions) = box_ w
      /\ box_window_ (run w actions) = box_window_ w).
Proof.
  revert w; induction actions as [ | a rest IH]; intros w.
  - cbn; auto.
  - cbn [run fold_left forallb].
    change (fold_left step rest (step w a)) with (run (step w a) rest).
    destruct (IH (step w a)) as (Et & Er & Eo & Eboxes).
    destruct (step_options w a) as (Et' & Er' & Eo' & Eboxes').
    rewrite Et, Er, Eo, Et', Er', Eo'.
    do 3 (split; [reflexivity | ]).
    intros Hall; apply andb_true_iff in Hall as [Ha Hrest].
    destruct (Eboxes Hrest) as [Eb Ebw], (Eboxes' Ha) as [Eb' Ebw'].
    split; congruence.
Qed.

(** X1.  No sequence of events and frames changes the title, the resize
    option or the render override of the window, and the two recorded
    boxes are changed by frames only: a sequence of events alone leaves
    them as they were. *)
Theorem X1_run_keeps_options (actions : list Action) (w : WindowImpl) :
  title (run w actions) = title w
  /\ resize (run w actions) = resize w
  /\ render (run w actions) = render w
  /\ (forallb is_event actions = true ->
      box_ (run w actions) = box_ w
      /\ box_window_ (run w actions) = box_window_ w).
Proof. apply run_options. Qed.

(** ** Events while no gesture is in progress *)

(** X2.  While no capture is held, a pointer event that the inner
    component leaves to the window is reported handled exactly when the
    pointer is inside box_window_, whatever its button and motion and
    whether or not the capture can be obtained; outside, the only effect
    of the event is to clear the two hover flags and the resizing flag. *)
Theorem X2_idle_event_handled_iff_inside
  (w : WindowImpl) (env : Env) (mouse : Mouse.t) :
  captured_mouse_ w = None ->
  ComponentBase_OnEvent env = false ->
  let inside := Contain (box_window_ w) (Mouse.x mouse) (Mouse.y mouse) in
  snd (OnEvent env (Event_Mouse mouse) w) = inside
  /\ (inside = false ->
      fst (OnEvent env (Event_Mouse mouse) w) =
        set_resize_bottom_right_ false
          (set_resize_bottom_right_hover_ false (set_mouse_hover_ false w))).
Proof.
  intros Hcap Hchild inside; subst inside.
  destruct (Contain (box_window_ w) (Mouse.x mouse) (Mouse.y mouse)) eqn:Hin;
    (split; [ | intros Hout; try discriminate]);
    event_cases w mouse; reflexivity.
Qed.

Lemma X2_idle_event_handled_iff_inside_witness :
  snd (OnEvent denied (release 3 1) Hi_drawn) = true
  /\ snd (OnEvent granted (press 40 12) Hi_drawn) = false
  /\ geometry (fst (OnEvent granted (press 40 12) Hi_drawn))
     = geometry Hi_drawn.
Proof.
  destruct (X2_idle_event_handled_iff_inside Hi_drawn denied
              (Mouse.mk Mouse.Left Mouse.Released 3 1) eq_refl eq_refl)
    as [Hin _].
  destruct (X2_idle_event_handled_iff_inside Hi_drawn granted
              (Mouse.mk Mouse.Left Mouse.Pressed 40 12) eq_refl eq_refl)
    as [Hout Hstate].
  split; [rewrite_by Hin | ].
  split; [rewrite_by Hout | ].
  unfold press; rewrite (Hstate eq_refl); reflexivity.
Defined.

(** A gesture starts on a granted left press inside the window, and on
    nothing else. *)
Lemma OnEvent_starts_gesture (w : WindowImpl) (env : Env) (event : Event) :
  captured_mouse_ w = None ->
  captured_mouse_ (fst (OnEvent env event w)) <> None <->
  exists mouse,
    event = Event_Mouse mouse
    /\ ComponentBase_OnEvent env = false
    /\ Contain (box_window_ w) (Mouse.x mouse) (Mouse.y mouse) = true
    /\ Mouse.button mouse = Mouse.Left
    /\ Mouse.motion mouse = Mouse.Pressed
    /\ CaptureMouse_1 env <> None
    /\ CaptureMouse_2 env <> None.
Proof.
  intros Hcap; split.
  - destruct (ComponentBase_OnEvent env) eqn:Hchild;
      [unfold OnEvent; rewrite Hchild; cbn; congruence | ].
    destruct event as [mouse | ];
      [ | unfold OnEvent; rewrite Hchild; cbn; congruence].
    intros Hstart; exists mouse; revert Hstart.
    destruct (Contain (box_window_ w) (Mouse.x mouse) (Mouse.y mouse)) eqn:Hin.
    all: unfold OnEvent; rewrite ?update_hover_eq.
    all: destruct mouse as [button motion x y]; destruct button, motion;
      open_window w;
      cbn [Mouse.is_Left Mouse.is_Pressed Mouse.is_Released];
      split_cases;
      cbn [Mouse.is_Left Mouse.is_Pressed Mouse.is_Released negb orb];
      split_cases;
      intros Hstart; try (now elim Hstart);
      repeat split; auto; discriminate.
  - intros (mouse & -> & Hchild & Hin & Hbutton & Hmotion & Hc1 & Hc2).
    destruct mouse as [button motion x y]; cbn in *; subst.
    apply (press_starts_gesture w env x y Hcap); [repeat split; auto | exact Hin].
Qed.

(** X3.  While no capture is held, an event makes the window take the
    capture exactly when it is a left press inside box_window_ that the
    inner component did not handle and for which both acquisitions of the
    capture succeed; no other event starts a gesture. *)
Theorem X3_gesture_starts_iff_granted_press
  (w : WindowImpl) (env : Env) (event : Event) :
  captured_mouse_ w = None ->
  captured_mouse_ (fst (OnEvent env event w)) <> None <->
  exists mouse,
    event = Event_Mouse mouse
    /\ ComponentBase_OnEvent env = false
    /\ Contain (box_window_ w) (Mouse.x mouse) (Mouse.y mouse) = true
    /\ Mouse.button mouse = Mouse.Left
    /\ Mouse.motion mouse = Mouse.Pressed
    /\ CaptureMouse_1 env <> None
    /\ CaptureMouse_2 env <> None.
Proof. apply OnEvent_starts_gesture. Qed.

(** A right press inside "Hi" takes no capture. *)
Lemma X3_gesture_starts_iff_granted_press_witness :
  captured_mouse_
    (fst (OnEvent granted
            (Event_Mouse (Mouse.mk Mouse.Right Mouse.Pressed 3 1)) Hi_drawn))
  = None.
Proof.
  destruct
    (captured_mouse_
       (fst (OnEvent granted
               (Event_Mouse (Mouse.mk Mouse.Right Mouse.Pressed 3 1))
               Hi_drawn))) eqn:Hc; [ | reflexivity].
  assert (Hstart :
    captured_mouse_
      (fst (OnEvent granted
              (Event_Mouse (Mouse.mk Mouse.Right Mouse.Pressed 3 1))
              Hi_drawn)) <> None) by (rewrite Hc; discriminate).
  apply (X3_gesture_starts_iff_granted_press Hi_drawn granted _ eq_refl)
    in Hstart.
  destruct Hstart as (mouse & Hevent & _ & _ & Hbutton & _).
  injection Hevent as <-; discriminate Hbutton.
Defined.

(** X4.  A granted left press inside the window starts a resize exactly
    when the pointer is on the bottom-right cell of box_window_ and
    resizing is enabled, and a drag otherwise: on the handle cell with
    resizing disabled it starts a drag.  The press itself leaves the
    geometry as it is. *)
Theorem X4_press_chooses_gesture
  (w : WindowImpl) (env : Env) (x y : Z) :
  captured_mouse_ w = None ->
  grants env ->
  Contain (box_window_ w) x y = true ->
  let w' := fst (OnEvent env (press x y) w) in
  captured_mouse_ w' <> None
  /\ (resize_bottom_right_ w' = true <->
      x = x_max (box_window_ w) /\ y = y_max (box_window_ w)
      /\ resize w = true)
  /\ drag_ w' = negb (resize_bottom_right_ w')
  /\ geometry w' = geometry w.
Proof.
  intros Hcap Hgrants Hin.
  destruct (press_starts_gesture w env x y Hcap Hgrants Hin)
    as [(Hc & Hr & Hd & _) Hgeo].
  cbn [step] in *.
  split; [exact Hc | ].
  split; [ | split; [now rewrite Hd, Hr | exact Hgeo]].
  rewrite Hr; cbn [resizing gesture_of_press].
  rewrite !andb_true_iff, !Z.eqb_eq; tauto.
Qed.

(** With resizing disabled, a press on the handle cell (9, 4) of "Hi"
    starts a drag. *)
Lemma X4_press_chooses_gesture_witness :
  let fixed := step (Window "Hi" 0 0 10 5 false None) first_frame in
  let w' := fst (OnEvent granted (press 9 4) fixed) in
  drag_ w' = true /\ resize_bottom_right_ w' = false.
Proof.
  destruct
    (X4_press_chooses_gesture
       (step (Window "Hi" 0 0 10 5 false None) first_frame) granted 9 4
       eq_refl granted_grants eq_refl)
    as (_ & Hresize & Hdrag & _).
  cbv zeta in *.
  destruct
    (resize_bottom_right_
       (fst (OnEvent granted (press 9 4)
               (step (Window "Hi" 0 0 10 5 false None) first_frame))))
    eqn:Hflag.
  - destruct Hresize as [Hhandle _].
    destruct (Hhandle eq_refl) as (_ & _ & Hoption); discriminate Hoption.
  - split; [exact Hdrag | reflexivity].
Defined.

(** X5.  Once the capture is held, the window gives it up exactly on a
    release event that the inner component did not handle: no motion, no
    further press and no non-pointer event ends the gesture. *)
Theorem X5_capture_kept_until_release
  (w : WindowImpl) (env : Env) (event : Event) :
  captured_mouse_ w <> None ->
  captured_mouse_ (fst (OnEvent env event w)) = None <->
  releases (Handle env event) = true.
Proof.
  intros Hcap; split.
  - intros Hnone.
    destruct (releases (Handle env event)) eqn:Hrel; [reflexivity | ].
    destruct (OnEvent_captured_frame env event w Hcap)
      as (_ & _ & _ & _ & _ & _ & _ & _ & _ & _ & Hkept).
    rewrite (Hkept Hrel) in Hnone; now elim Hcap.
  - unfold releases.
    destruct event as [mouse | ]; [ | discriminate].
    intros Hrel; apply andb_true_iff in Hrel as [Hchild Hmotion].
    apply negb_true_iff in Hchild.
    now destruct (OnEvent_release env mouse w Hchild Hcap Hmotion)
      as (_ & Hnone & _).
Qed.

Lemma X5_capture_kept_until_release_witness :
  captured_mouse_ (fst (OnEvent granted (release 50 20) Hi_dragged)) = None.
Proof.
  apply (X5_capture_kept_until_release Hi_dragged granted (release 50 20)).
  - discriminate.
  - reflexivity.
Defined.

(** X6.  After every pointer event that the inner component leaves to the
    window, captured or not, the hover flag tells whether the pointer is
    inside box_window_, and the handle-hover flag is set exactly when the
    pointer is inside, on the bottom-right cell of box_window_ and no other
    cell, and resizing is enabled. *)
Theorem X6_hover_flags
  (w : WindowImpl) (env : Env) (mouse : Mouse.t) :
  ComponentBase_OnEvent env = false ->
  let w' := fst (OnEvent env (Event_Mouse mouse) w) in
  let inside := Contain (box_window_ w) (Mouse.x mouse) (Mouse.y mouse) in
  mouse_hover_ w' = inside
  /\ (resize_bottom_right_hover_ w' = true <->
      inside = true
      /\ Mouse.x mouse = x_max (box_window_ w)
      /\ Mouse.y mouse = y_max (box_window_ w)
      /\ resize w = true).
Proof.
  intros Hchild w' inside.
  assert (Hflags :
    mouse_hover_ w' = inside
    /\ resize_bottom_right_hover_ w' =
         inside && ((Mouse.x mouse =? x_max (box_window_ w))
                    && (Mouse.y mouse =? y_max (box_window_ w)) && resize w)).
  { subst w' inside.
    destruct (Contain (box_window_ w) (Mouse.x mouse) (Mouse.y mouse)) eqn:Hin;
      destruct (captured_mouse_ w) eqn:Hc;
      event_cases w mouse; split; reflexivity. }
  destruct Hflags as [Hhover Hhandle].
  split; [exact Hhover | ].
  rewrite Hhandle, !andb_true_iff, !Z.eqb_eq; tauto.
Qed.

Lemma X6_hover_flags_witness :
  mouse_hover_ (fst (OnEvent granted (move 9 4) Hi_drawn)) = true
  /\ mouse_hover_ (fst (OnEvent granted (move 10 4) Hi_drawn)) = false.
Proof.
  destruct (X6_hover_flags Hi_drawn granted
              (Mouse.mk Mouse.Left Mouse.Moved 9 4) eq_refl) as [Hin _].
  destruct (X6_hover_flags Hi_drawn granted
              (Mouse.mk Mouse.Left Mouse.Moved 10 4) eq_refl) as [Hout _].
  split; [rewrite_by Hin | rewrite_by Hout].
Defined.

(** ** Runs without a gesture *)

Lemma step_idle (w : WindowImpl) (a : Action) :
  captured_mouse_ w = None ->
  may_start a = false ->
  captured_mouse_ (step w a) = None /\ geometry (step w a) = geometry w.
Proof.
  intros Hcap Ha.
  destruct a as [env event | box box_window]; [ | now split].
  cbn [step].
  destruct (OnEvent_free_frame env event w Hcap) as (Egeo & _).
  split; [ | exact Egeo].
  destruct (captured_mouse_ (fst (OnEvent env event w))) eqn:Hc;
    [ | reflexivity].
  assert (Hstart : captured_mouse_ (fst (OnEvent env event w)) <> None)
    by (rewrite Hc; discriminate).
  apply (OnEvent_starts_gesture w env event Hcap) in Hstart.
  destruct Hstart as (mouse & -> & Hchild & _ & Hbutton & Hmotion & Hc1 & Hc2).
  cbn in Ha; rewrite Hchild, Hbutton, Hmotion in Ha.
  destruct (CaptureMouse_1 env); [ | now elim Hc1].
  destruct (CaptureMouse_2 env); [ | now elim Hc2].
  discriminate Ha.
Qed.

(** X7.  Without a granted left press the window neither moves nor
    changes size: from a state with no capture, any sequence of frames and
    of events none of which is a left press that obtains the capture
    leaves left, top, width and height as they were and takes no capture. *)
Theorem X7_no_press_no_change (actions : list Action) (w : WindowImpl) :
  captured_mouse_ w = None ->
  forallb (fun a => negb (may_start a)) actions = true ->
  captured_mouse_ (run w actions) = None
  /\ geometry (run w actions) = geometry w.
Proof.
  revert w; induction actions as [ | a rest IH]; intros w Hcap Hall;
    [now split | ].
  cbn in Hall; apply andb_true_iff in Hall as [Ha Hrest].
  apply negb_true_iff in Ha.
  destruct (step_idle w a Hcap Ha) as [Hcap' Hgeo'].
  cbn [run fold_left].
  change (fold_left step rest (step w a)) with (run (step w a) rest).
  destruct (IH (step w a) Hcap' Hrest) as [Hcap'' Hgeo''].
  split; congruence.
Qed.

(** Motions, a denied press, a right press and releases over "Hi". *)
Lemma X7_no_press_no_change_witness :
  let actions :=
    [Handle granted (move 3 1); Handle denied (press 3 1);
     Handle granted (Event_Mouse (Mouse.mk Mouse.Right Mouse.Pressed 3 1));
     first_frame; Handle granted (move 60 20); Handle granted (release 4 2)] in
  captured_mouse_ (run Hi_drawn actions) = None
  /\ geometry (run Hi_drawn actions) = geometry Hi_drawn.
Proof.
  apply (X7_no_press_no_change
           [Handle granted (move 3 1); Handle denied (press 3 1);
            Handle granted
              (Event_Mouse (Mouse.mk Mouse.Right Mouse.Pressed 3 1));
            first_frame; Handle granted (move 60 20);
            Handle granted (release 4 2)] Hi_drawn).
  - reflexivity.
  - reflexivity.
Defined.

(** ** The minimum size *)

Lemma step_size (w : WindowImpl) (a : Action) :
  (width (step w a) = width w /\ height (step w a) = height w)
  \/ (min_width w <= width (step w a) /\ 2 <= height (step w a)).
Proof.
  destruct a as [env event | box box_window]; [ | left; now split].
  cbn [step].
  destruct (captured_mouse_ w) eqn:Hc.
  2: { destruct (OnEvent_free_frame env event w Hc) as (Egeo & _).
       unfold geometry in Egeo; left; split; congruence. }
  assert (Hcap : captured_mouse_ w <> None) by congruence.
  destruct (ComponentBase_OnEvent env) eqn:Hchild.
  { unfold OnEvent; rewrite Hchild; left; now split. }
  destruct event as [mouse | ].
  2: { unfold OnEvent; rewrite Hchild; left; now split. }
  destruct (Mouse.is_Released (Mouse.motion mouse)) eqn:Hmotion.
  - destruct (OnEvent_release env mouse w Hchild Hcap Hmotion)
      as (_ & _ & _ & _ & Egeo).
    unfold geometry in Egeo; left; split; congruence.
  - destruct (OnEvent_motion env mouse w Hchild Hcap Hmotion)
      as (_ & _ & _ & Ew & Eh).
    right; rewrite Ew, Eh; unfold CInt.max; lia.
Qed.

Lemma step_within_minimum (w : WindowImpl) (a : Action) :
  within_minimum w -> within_minimum (step w a).
Proof.
  unfold within_minimum; intros [Hw Hh].
  assert (Emin : min_width (step w a) = min_width w).
  { unfold min_width. destruct (step_options w a) as (Et & _). now rewrite Et. }
  rewrite Emin.
  destruct (step_size w a) as [[Ew Eh] | Hclamped]; [ | exact Hclamped].
  rewrite Ew, Eh; now split.
Qed.

(** X8.  The minimum size is kept for good: once width >= title length + 2
    and height >= 2 hold, they hold after every sequence of events and
    frames, whatever gestures it contains. *)
Theorem X8_minimum_is_kept (actions : list Action) (w : WindowImpl) :
  title_length w + 2 <= CInt.max_int ->
  title_length w + 2 <= width w ->
  2 <= height w ->
  title_length (run w actions) + 2 <= width (run w actions)
  /\ 2 <= height (run w actions).
Proof.
  intros Hlen Hw Hh.
  assert (Hrun : within_minimum (run w actions)).
  { assert (Hstart : within_minimum w)
      by (unfold within_minimum; rewrite (min_width_title w Hlen); now split).
    clear Hlen Hw Hh; revert w Hstart.
    induction actions as [ | a rest IH]; intros w Hstart; [exact Hstart | ].
    cbn [run fold_left]; apply IH; now apply step_within_minimum. }
  destruct (run_options actions w) as (Et & _).
  unfold within_minimum, min_width in Hrun.
  unfold title_length in *; rewrite Et in *.
  fold (min_width w) in Hrun.
  change (CInt.to_int
            (CInt.to_size_t (Z.of_nat (String.length (title w)) + 2)))
    with (min_width w) in Hrun.
  rewrite (min_width_title w Hlen) in Hrun.
  exact Hrun.
Qed.

(** "Hi" resized far to the left, released, then dragged. *)
Lemma X8_minimum_is_kept_witness :
  let actions :=
    [Handle granted (press 9 4); Handle granted (move (-30) (-30));
     Handle granted (release (-30) (-30)); Frame terminal (mkBox 0 3 0 1);
     Handle granted (press 1 0); Handle granted (move 5 5)] in
  title_length (run Hi_drawn actions) + 2 <= width (run Hi_drawn actions)
  /\ 2 <= height (run Hi_drawn actions).
Proof.
  apply (X8_minimum_is_kept
           [Handle granted (press 9 4); Handle granted (move (-30) (-30));
            Handle granted (release (-30) (-30));
            Frame terminal (mkBox 0 3 0 1);
            Handle granted (press 1 0); Handle granted (move 5 5)] Hi_drawn).
  - vm_compute; discriminate.
  - vm_compute; discriminate.
  - vm_compute; discriminate.
Defined.

(** ** What a gesture leaves alone *)

Lemma run_resize_position (g : Gesture) (actions : list Action) :
  resizing g = true ->
  forall w,
    in_gesture g w ->
    forallb (during_gesture (origin_x g) (origin_y g)) actions = true ->
    left (run w actions) = left w /\ top (run w actions) = top w.
Proof.
  intros Hresize.
  induction actions as [ | a rest IH]; intros w Hg Hall; [now split | ].
  cbn in Hall; apply andb_true_iff in Hall as [Ha Hrest].
  cbn [run fold_left].
  change (fold_left step rest (step w a)) with (run (step w a) rest).
  destruct (IH (step w a) (step_in_gesture g w a Hg Ha) Hrest) as [El Et].
  pose proof (step_gesture_geometry g w a Hg Ha) as Hstep.
  rewrite El, Et.
  destruct (moved a).
  - destruct Hstep as (El' & Et' & _).
    rewrite Hresize in El', Et'; now split.
  - unfold geometry in Hstep; split; congruence.
Qed.

Lemma run_drag_size (g : Gesture) (actions : list Action) :
  resizing g = false ->
  forall w,
    in_gesture g w ->
    within_minimum w ->
    forallb (during_gesture (origin_x g) (origin_y g)) actions = true ->
    width (run w actions) = width w /\ height (run w actions) = height w.
Proof.
  intros Hdrag.
  induction actions as [ | a rest IH]; intros w Hg Hmin Hall; [now split | ].
  cbn in Hall; apply andb_true_iff in Hall as [Ha Hrest].
  cbn [run fold_left].
  change (fold_left step rest (step w a)) with (run (step w a) rest).
  pose proof (step_gesture_geometry g w a Hg Ha) as Hstep.
  assert (Esize : width (step w a) = width w /\ height (step w a) = height w).
  { destruct Hmin as [Hw Hh].
    destruct (moved a).
    - destruct Hstep as (_ & _ & Ew & Eh).
      rewrite Hdrag in Ew, Eh; rewrite Ew, Eh; unfold CInt.max; lia.
    - unfold geometry in Hstep; split; congruence. }
  destruct Esize as [Ew Eh].
  destruct (IH (step w a) (step_in_gesture g w a Hg Ha)
              (step_within_minimum w a Hmin) Hrest) as [Ew' Eh'].
  split; congruence.
Qed.

(** X9.  A resize gesture never moves the window: after a granted left
    press on the bottom-right handle cell with resizing enabled, left and
    top keep their values through every motion, frame and other event of
    the gesture. *)
Theorem X9_resize_keeps_position
  (w : WindowImpl) (env : Env) (x0 y0 : Z) (mid : list Action) :
  captured_mouse_ w = None ->
  grants env ->
  Contain (box_window_ w) x0 y0 = true ->
  x0 = x_max (box_window_ w) ->
  y0 = y_max (box_window_ w) ->
  resize w = true ->
  forallb (during_gesture (x_min (box_ w)) (y_min (box_ w))) mid = true ->
  let w' := run w (Handle env (press x0 y0) :: mid) in
  left w' = left w /\ top w' = top w.
Proof.
  intros Hcap Hgrants Hin Hx Hy Hopt Hmid w'.
  destruct (press_starts_gesture w env x0 y0 Hcap Hgrants Hin) as [Hg Hgeo].
  assert (Hresize : resizing (gesture_of_press w x0 y0) = true).
  { cbn. rewrite Hx, Hy, Hopt, !Z.eqb_refl. reflexivity. }
  destruct (run_resize_position (gesture_of_press w x0 y0) mid Hresize _ Hg Hmid)
    as [El Et].
  subst w'; cbn [run fold_left].
  change (fold_left step mid (step w (Handle env (press x0 y0))))
    with (run (step w (Handle env (press x0 y0))) mid).
  unfold geometry in Hgeo.
  split; congruence.
Qed.

Lemma X9_resize_keeps_position_witness :
  let w' :=
    run Hi_drawn
      [Handle granted (press 9 4); Handle granted (move 20 10);
       Handle granted (move 2 1)] in
  left w' = left Hi_drawn /\ top w' = top Hi_drawn.
Proof.
  apply (X9_resize_keeps_position Hi_drawn granted 9 4
           [Handle granted (move 20 10); Handle granted (move 2 1)]).
  - reflexivity.
  - exact granted_grants.
  - reflexivity.
  - reflexivity.
  - reflexivity.
  - reflexivity.
  - reflexivity.
Defined.

(** X10.  A drag gesture never changes a size that is within the minimum:
    if width >= title().size() + 2 (as an int) and height >= 2 hold at
    the press, width and height keep their values through every motion,
    frame and other event of the drag. *)
Theorem X10_drag_keeps_size
  (w : WindowImpl) (env : Env) (x0 y0 : Z) (mid : list Action) :
  captured_mouse_ w = None ->
  grants env ->
  Contain (box_window_ w) x0 y0 = true ->
  (x0 =? x_max (box_window_ w)) && (y0 =? y_max (box_window_ w)) && resize w
    = false ->
  min_width w <= width w ->
  2 <= height w ->
  forallb (during_gesture (x_min (box_ w)) (y_min (box_ w))) mid = true ->
  let w' := run w (Handle env (press x0 y0) :: mid) in
  width w' = width w /\ height w' = height w.
Proof.
  intros Hcap Hgrants Hin Hbody Hw Hh Hmid w'.
  destruct (press_starts_gesture w env x0 y0 Hcap Hgrants Hin) as [Hg Hgeo].
  set (w1 := step w (Handle env (press x0 y0))) in *.
  unfold geometry in Hgeo.
  assert (Hmin : within_minimum w1).
  { unfold within_minimum.
    replace (min_width w1) with (min_width w).
    - replace (width w1) with (width w) by congruence.
      replace (height w1) with (height w) by congruence.
      now split.
    - unfold min_width; destruct (step_options w (Handle env (press x0 y0)))
        as (Et & _); fold w1 in Et; now rewrite Et. }
  destruct (run_drag_size (gesture_of_press w x0 y0) mid Hbody w1 Hg Hmin Hmid)
    as [Ew Eh].
  subst w'; cbn [run fold_left].
  change (fold_left step mid (step w (Handle env (press x0 y0))))
    with (run w1 mid).
  split; congruence.
Qed.

Lemma X10_drag_keeps_size_witness :
  let w' :=
    run Hi_drawn
      [Handle granted (press 3 1); Handle granted (move 20 10);
       Handle granted (move (-5) (-7))] in
  width w' = width Hi_drawn /\ height w' = height Hi_drawn.
Proof.
  apply (X10_drag_keeps_size Hi_drawn granted 3 1
           [Handle granted (move 20 10); Handle granted (move (-5) (-7))]).
  - reflexivity.
  - exact granted_grants.
  - reflexivity.
  - reflexivity.
  - vm_compute; discriminate.
  - vm_compute; discriminate.
  - reflexivity.
Defined.




(** ** Resizing disabled *)

Lemma OnEvent_resize_disabled (env : Env) (event : Event) (w : WindowImpl) :
  resize w = false ->
  resize_bottom_right_ w = false ->
  resize_bottom_right_hover_ w = false ->
  resize_bottom_right_ (fst (OnEvent env event w)) = false
  /\ resize_bottom_right_hover_ (fst (OnEvent env event w)) = false.
Proof.
  intros Hopt Hflag Hhover.
  destruct (ComponentBase_OnEvent env) eqn:Hchild;
    [unfold OnEvent; rewrite Hchild; cbn; now split | ].
  destruct event as [mouse | ];
    [ | unfold OnEvent; rewrite Hchild; cbn; now split].
  destruct (Contain (box_window_ w) (Mouse.x mouse) (Mouse.y mouse)) eqn:Hin;
    destruct (captured_mouse_ w) eqn:Hc;
    event_cases w mouse;
    rewrite ?andb_false_r; cbn [negb andb orb]; split_cases;
    split; reflexivity.
Qed.

(** X12.  With resizing disabled the window never resizes: in every state
    reachable from a window created with the resize option off, the
    resizing flag and the handle-hover flag are off, so that every gesture
    is a drag. *)
Theorem X12_resize_disabled_never_resizes (w : WindowImpl) :
  reachable w ->
  resize w = false ->
  resize_bottom_right_ w = false /\ resize_bottom_right_hover_ w = false.
Proof.
  induction 1 as [ | w a Hw IH]; intros Hopt; [now split | ].
  destruct (step_options w a) as (_ & Eopt & _).
  rewrite Eopt in Hopt.
  destruct (IH Hopt) as [Hflag Hhover].
  destruct a as [env event | box box_window]; [ | now split].
  now apply OnEvent_resize_disabled.
Qed.

Lemma X12_resize_disabled_never_resizes_witness :
  let w :=
    run (Window "Hi" 0 0 10 5 false None)
      [first_frame; Handle granted (move 9 4); Handle granted (press 9 4);
       Handle granted (move 12 6)] in
  resize_bottom_right_ w = false /\ resize_bottom_right_hover_ w = false.
Proof.
  apply (X12_resize_disabled_never_resizes
           (run (Window "Hi" 0 0 10 5 false None)
              [first_frame; Handle granted (move 9 4);
               Handle granted (press 9 4); Handle granted (move 12 6)])).
  - cbn [run fold_left]; repeat apply reachable_step; apply reachable_Window.
  - reflexivity.
Defined.

(** ** Rendering *)



(** ** More on the drop shadow *)

Lemma paint_shadow_elsewhere (cells : list (Z * Z)) :
  forall screen x y,
    ~ In (x, y) cells ->
    fold_left paint_shadow cells screen x y = screen x y.
Proof.
  induction cells as [ | c rest IH]; intros screen x y Hout; [reflexivity | ].
  cbn [fold_left]; rewrite IH by (intros Hin; apply Hout; now right).
  unfold paint_shadow, set_PixelAt.
  destruct ((x =? fst c) && (y =? snd c)) eqn:Heq; [ | reflexivity].
  apply andb_true_iff in Heq as [Hx Hy].
  apply Z.eqb_eq in Hx, Hy.
  elim Hout; left.
  destruct c; cbn in *; congruence.
Qed.


Ltac by_computation := vm_compute; first [reflexivity | discriminate].

(** X14.  The shadow is painted beside the element, never over it: for a
    box of positive width and height whose coordinates are below the
    largest int, the decorator leaves every cell as its child drew it,
    except in the column right of the box and in the row below it; in
    particular every cell inside the box is the child's. *)
Theorem X14_shadow_spares_the_box
  (child : Element) (box : Box) (screen : Screen) (x y : Z) :
  x_min box <= x_max box ->
  y_min box <= y_max box ->
  CInt.min_int <= x_min box ->
  CInt.min_int <= y_min box ->
  x_max box < CInt.max_int ->
  y_max box < CInt.max_int ->
  (x <> x_max box + 1 -> y <> y_max box + 1 ->
   Render (DropShadowDecorator child) box screen x y
   = Render child box screen x y)
  /\ (Contain box x y = true ->
      Render (DropShadowDecorator child) box screen x y
      = Render child box screen x y).
Proof.
  intros Hwidth Hheight Hx_min Hy_min Hx_max Hy_max.
  assert (Hspared :
    x <> x_max box + 1 -> y <> y_max box + 1 ->
    Render (DropShadowDecorator child) box screen x y
    = Render child box screen x y).
  { intros Hx Hy.
    rewrite DropShadowDecorator_Render.
    apply paint_shadow_elsewhere.
    intros Hin; apply in_app_or in Hin as [Hin | Hin].
    - apply right_side_In in Hin; try assumption. cbn in Hin; lia.
    - apply bottom_side_In in Hin; try assumption. cbn in Hin; lia. }
  split; [exact Hspared | ].
  unfold Contain; intros Hin.
  rewrite !andb_true_iff, !Z.leb_le in Hin.
  apply Hspared; lia.
Qed.

(** The dot drawn by the child in the top-left cell of its box is still
    there under the shadow. *)
Lemma X14_shadow_spares_the_box_witness :
  Render (DropShadowDecorator dot) (mkBox 0 9 0 4) blank_Screen 0 0
  = shadow_Pixel
  /\ Render (DropShadowDecorator dot) (mkBox 0 9 0 4) blank_Screen 5 2
     = blank_Pixel.
Proof.
  split.
  - destruct (X14_shadow_spares_the_box dot (mkBox 0 9 0 4) blank_Screen 0 0)
      as [_ Hinside];
      [by_computation | by_computation | by_computation | by_computation
      | by_computation | by_computation | ].
    rewrite_by (Hinside eq_refl).
  - destruct (X14_shadow_spares_the_box dot (mkBox 0 9 0 4) blank_Screen 5 2)
      as [_ Hinside];
      [by_computation | by_computation | by_computation | by_computation
      | by_computation | by_computation | ].
    rewrite_by (Hinside eq_refl).
Defined.


(** ** Repeated motions *)

(** The window after a motion, member by member (lines 122-153). *)
Lemma OnEvent_motion_state (env : Env) (mouse : Mouse.t) (w : WindowImpl) :
  ComponentBase_OnEvent env = false ->
  captured_mouse_ w <> None ->
  Mouse.is_Released (Mouse.motion mouse) = false ->
  fst (OnEvent env (Event_Mouse mouse) w) =
    set_height
      (CInt.max
         (if resize_bottom_right_ w
          then Mouse.y mouse -i resize_start_y w -i y_min (box_ w)
          else height w) 2)
      (set_width
         (CInt.max
            (if resize_bottom_right_ w
             then Mouse.x mouse -i resize_start_x w -i x_min (box_ w)
             else width w) (min_width w))
         (set_top
            (if drag_ w
             then Mouse.y mouse -i drag_start_y w -i y_min (box_ w)
             else top w)
            (set_left
               (if drag_ w
                then Mouse.x mouse -i drag_start_x w -i x_min (box_ w)
                else left w)
               (update_hover mouse w)))).
Proof.
  intros Hchild Hcap Hmotion.
  destruct (captured_mouse_ w) eqn:Hc; [clear Hcap | congruence].
  rewrite update_hover_eq.
  event_cases w mouse; reflexivity.
Qed.

(** X16.  A motion delivered twice is harmless: while the capture is held,
    handling the same motion event a second time leaves the window exactly
    as the first time left it, since the geometry is computed from the
    pointer and the offsets of the press and the clamp is idempotent. *)
Theorem X16_motion_is_idempotent
  (w : WindowImpl) (env : Env) (mouse : Mouse.t) :
  captured_mouse_ w <> None ->
  ComponentBase_OnEvent env = false ->
  Mouse.is_Released (Mouse.motion mouse) = false ->
  let once := fst (OnEvent env (Event_Mouse mouse) w) in
  fst (OnEvent env (Event_Mouse mouse) once) = once.
Proof.
  intros Hcap Hchild Hmotion once.
  assert (Hcap' : captured_mouse_ once <> None).
  { destruct (OnEvent_captured_frame env (Event_Mouse mouse) w Hcap)
      as (_ & _ & _ & _ & _ & _ & _ & _ & _ & _ & Hkept).
    subst once; rewrite Hkept; [exact Hcap | ].
    cbn; now rewrite Hchild, Hmotion. }
  rewrite (OnEvent_motion_state env mouse once Hchild Hcap' Hmotion).
  subst once.
  rewrite (OnEvent_motion_state env mouse w Hchild Hcap Hmotion).
  rewrite !update_hover_eq.
  destruct w as [? ? ? ? ? ? ? ? ? ? ? ? ? ? ? dragging resizing ?];
    destruct dragging, resizing; cbn; unfold CInt.max;
    rewrite <- ?Z.max_assoc, ?Z.max_id; reflexivity.
Qed.

Lemma X16_motion_is_idempotent_witness :
  fst (OnEvent granted (move 7 3)
         (fst (OnEvent granted (move 7 3) Hi_dragged)))
  = fst (OnEvent granted (move 7 3) Hi_dragged).
Proof.
  apply (X16_motion_is_idempotent Hi_dragged granted
           (Mouse.mk Mouse.Left Mouse.Moved 7 3)).
  - discriminate.
  - reflexivity.
  - reflexivity.
Defined.
